(** * ci_scripts: configuration reading, environment access and command
      execution helpers

    A shallow embedding of [ci_scripts/ci_tools.py].  The module is a thin
    layer over three parts of the Python standard library: [configparser]
    (documents made of sections of string options), [os.environ] (the
    process environment as a mapping) and [subprocess] (running a command
    through the host shell).  Each helper of [ci_tools.py] is translated
    next to a model of the library calls it makes; the library model follows
    CPython's [configparser.py].

    Conventions:
    - strings are [string], read as sequences of code points below 256
      (ASCII and Latin-1); dictionaries are [gmap string _];
    - a call that may raise returns a [result];
    - code that touches the file system, the table of open files or the
      environment is a function [World -> result A * World];
    - [sys.version_info.major] is the explicit argument [major] of every
      function whose source branches on it. *)

From Stdlib Require Import ZArith Ascii String List.
From stdpp Require Import base option strings gmap fin_maps.

Local Open Scope string_scope.
Local Open Scope Z_scope.

(** ** Python exceptions raised by the modelled code *)

Inductive exn : Type :=
  | KeyError (key : string)
  | FileNotFoundError (path : string)
  | AttributeError (attribute : string)
  | NoSectionError (section : string)
  | NoOptionError (option section : string)
  | InterpolationSyntaxError (option section : string)
  | InterpolationMissingOptionError (option section rawval reference : string)
  | InterpolationDepthError (option section rawval : string)
  | MissingSectionHeaderError (source : string)
  | DuplicateSectionError (section : string)
  | DuplicateOptionError (section option : string)
  | ParsingError (source : string)
  | ValueError (message : string)
  | OSError (errno : Z)
  | CalledProcessError (returncode : Z) (cmd : string).

(** The spec's "lookup error": a section or a key that is not there. *)
Definition lookup_error (e : exn) : bool :=
  match e with
  | KeyError _ | NoSectionError _ | NoOptionError _ _ => true
  | _ => false
  end.

(** ** Results of calls that may raise *)

Inductive result (A : Type) : Type :=
  | Ok (a : A)
  | Raise (e : exn).
Arguments Ok {A} a.
Arguments Raise {A} e.

(** Sequencing: the first exception raised ends the computation. *)
Definition result_bind {A B : Type} (k : A -> result B) (r : result A) : result B :=
  match r with
  | Ok a => k a
  | Raise e => Raise e
  end.

Definition result_map {A B : Type} (f : A -> B) (r : result A) : result B :=
  match r with
  | Ok a => Ok (f a)
  | Raise e => Raise e
  end.

#[global] Instance result_mbind : MBind result := @result_bind.
#[global] Instance result_mret : MRet result := @Ok.
#[global] Instance result_fmap : FMap result := @result_map.

Definition is_ok {A : Type} (r : result A) : bool :=
  match r with Ok _ => true | Raise _ => false end.

(** ** Python string methods used by the code *)

Module Str.

(** [c in chars] for a character [c]. *)
Fixpoint mem (c : ascii) (chars : string) : bool :=
  match chars with
  | EmptyString => false
  | String a chars' => Ascii.eqb c a || mem c chars'
  end.

(** [s.lstrip(chars)] *)
Fixpoint lstrip (chars s : string) : string :=
  match s with
  | EmptyString => EmptyString
  | String a s' => if mem a chars then lstrip chars s' else s
  end.

(** [s.rstrip(chars)] *)
Fixpoint rstrip (chars s : string) : string :=
  match s with
  | EmptyString => EmptyString
  | String a s' =>
      match rstrip chars s' with
      | EmptyString => if mem a chars then EmptyString else String a EmptyString
      | r => String a r
      end
  end.

(** [s.strip(chars)]: leading and trailing characters of [chars] removed. *)
Definition strip (chars s : string) : string := rstrip chars (lstrip chars s).

(** [c * n] for a one-character string. *)
Fixpoint replicate (n : nat) (c : ascii) : string :=
  match n with
  | O => EmptyString
  | S n' => String c (replicate n' c)
  end.

(** First and last character, when there is one. *)
Definition first (s : string) : option ascii :=
  match s with
  | EmptyString => None
  | String a _ => Some a
  end.

Fixpoint last (s : string) : option ascii :=
  match s with
  | EmptyString => None
  | String a EmptyString => Some a
  | String _ s' => last s'
  end.

(** [c.lower()] for one character.  Among the code points below 256 the
    upper-case letters are U+0041 to U+005A and U+00C0 to U+00DE without
    the multiplication sign U+00D7; the lower-case form of each is 32
    above it.  Every other character is left as it is. *)
Definition lower_char (c : ascii) : ascii :=
  let n := nat_of_ascii c in
  if ((Nat.leb 65 n && Nat.leb n 90)
      || (Nat.leb 192 n && Nat.leb n 222 && negb (Nat.eqb n 215)))%bool
  then ascii_of_nat (n + 32) else c.

(** [s.lower()] *)
Fixpoint lower (s : string) : string :=
  match s with
  | EmptyString => EmptyString
  | String a s' => String (lower_char a) (lower s')
  end.

(** [s.find(c)] as the split at the first [c]: [Some (before, after)] with
    [s = before ++ c ++ after], or [None] when [c] does not occur (Python's
    [-1]). *)
Fixpoint split_at (c : ascii) (s : string) : option (string * string) :=
  match s with
  | EmptyString => None
  | String a s' =>
      if Ascii.eqb a c then Some (EmptyString, s')
      else match split_at c s' with
           | Some (l, r) => Some (String a l, r)
           | None => None
           end
  end.

(** [s.split(c)] *)
Fixpoint split (c : ascii) (s : string) : list string :=
  match s with
  | EmptyString => [EmptyString]
  | String a s' =>
      if Ascii.eqb a c then EmptyString :: split c s'
      else match split c s' with
           | [] => [String a EmptyString]
           | h :: t => String a h :: t
           end
  end.

End Str.

(** The double quote, the argument of [strip] in [_get_value]. *)
Definition dquote : ascii := Ascii.ascii_of_nat 34.
Definition QUOTE : string := String dquote EmptyString.

(** ** The standard library module [configparser] (Python 3)

    The parser object after [ConfigParser(...)]: its interpolation handler
    and the two dictionaries [_defaults] (the options of the [DEFAULT]
    section) and [_sections] (the options of every other section).  Option
    names are stored as [optionxform] left them, values as raw text: a value
    written ["foo"] in the file keeps its two quote characters. *)

Module configparser.

Definition MAX_INTERPOLATION_DEPTH : nat := 10.
Definition DEFAULTSECT : string := "DEFAULT".

Inductive Interpolation : Type :=
  | BasicInterpolation
  | ExtendedInterpolation.

Record ConfigParser : Type := mkConfigParser {
  _interpolation : Interpolation;
  _defaults : gmap string string;
  _sections : gmap string (gmap string string)
}.

(** [ConfigParser(interpolation=...)]: a parser that has read nothing.
    Without the argument the handler is [BasicInterpolation]. *)
Definition new (interpolation : Interpolation) : ConfigParser :=
  {| _interpolation := interpolation; _defaults := ∅; _sections := ∅ |}.

Definition optionxform (optionstr : string) : string := Str.lower optionstr.

Definition has_section (parser : ConfigParser) (section : string) : bool :=
  bool_decide (is_Some (_sections parser !! section)).

(** [_unify_values(section, None)]: the section's options, then those of
    [DEFAULT]; the chain of dictionaries is its left-biased union. *)
Definition _unify_values (parser : ConfigParser) (section : string)
  : result (gmap string string) :=
  match _sections parser !! section with
  | Some sectiondict => Ok (sectiondict ∪ _defaults parser)
  | None =>
      if bool_decide (section ≠ DEFAULTSECT) then Raise (NoSectionError section)
      else Ok (∅ ∪ _defaults parser)
  end.

(** [get(section, option, raw=True)] *)
Definition get_raw (parser : ConfigParser) (section option : string)
  : result string :=
  d ← _unify_values parser section;
  let option := optionxform option in
  match d !! option with
  | Some value => Ok value
  | None => Raise (NoOptionError option section)
  end.

(** [get(section, option, raw=True, fallback=rest)] *)
Definition get_raw_fallback (parser : ConfigParser) (section option rest : string)
  : string :=
  match get_raw parser section option with
  | Ok value => value
  | Raise _ => rest
  end.

(** [dict(items(section, raw=True))] *)
Definition items_raw (parser : ConfigParser) (section : string)
  : result (gmap string string) :=
  match _sections parser !! section with
  | Some sectiondict => Ok (sectiondict ∪ _defaults parser)
  | None =>
      if bool_decide (section ≠ DEFAULTSECT) then Raise (NoSectionError section)
      else Ok (_defaults parser)
  end.

(** [ExtendedInterpolation._interpolate_some].  [budget] is
    [MAX_INTERPOLATION_DEPTH + 1 - depth]: it is [0] exactly when
    [depth > MAX_INTERPOLATION_DEPTH].  The [while rest] loop is [loop];
    every iteration shortens [rest], so [S (length rest)] iterations are
    enough.  The pieces appended to [accum] are returned joined. *)
Fixpoint extended_interpolate_some (budget : nat) (parser : ConfigParser)
    (option rest section : string) (map : gmap string string) : result string :=
  let rawval := get_raw_fallback parser section option rest in
  match budget with
  | O => Raise (InterpolationDepthError option section rawval)
  | S budget' =>
      (fix loop (fuel : nat) (rest : string) : result string :=
         match fuel with
         | O => Ok EmptyString
         | S fuel' =>
             match Str.split_at "$" rest with
             | None => Ok rest
             | Some (before, after) =>
                 match after with
                 | String "$" rest' =>
                     tail ← loop fuel' rest';
                     Ok (before +:+ "$" +:+ tail)
                 | String "{" body =>
                     match Str.split_at "}" body with
                     | Some (String c name, rest') =>
                         let path := Str.split ":" (String c name) in
                         found ←
                           match path with
                           | [p0] =>
                               let opt := optionxform p0 in
                               match map !! opt with
                               | Some v => Ok (section, opt, v)
                               | None =>
                                   Raise (InterpolationMissingOptionError
                                            option section rawval (String c name))
                               end
                           | [p0; p1] =>
                               let opt := optionxform p1 in
                               match get_raw parser p0 opt with
                               | Ok v => Ok (p0, opt, v)
                               | Raise _ =>
                                   Raise (InterpolationMissingOptionError
                                            option section rawval (String c name))
                               end
                           | _ => Raise (InterpolationSyntaxError option section)
                           end;
                         let '(sect, opt, v) := found in
                         expansion ←
                           (if Str.mem "$" v then
                              map' ← items_raw parser sect;
                              extended_interpolate_some budget' parser opt v sect map'
                            else Ok v);
                         tail ← loop fuel' rest';
                         Ok (before +:+ expansion +:+ tail)
                     | _ => Raise (InterpolationSyntaxError option section)
                     end
                 | _ => Raise (InterpolationSyntaxError option section)
                 end
             end
         end) (S (String.length rest)) rest
  end.

(** [BasicInterpolation._interpolate_some]: the same loop for [%%] and
    [%(name)s]. *)
Fixpoint basic_interpolate_some (budget : nat) (parser : ConfigParser)
    (option rest section : string) (map : gmap string string) : result string :=
  let rawval := get_raw_fallback parser section option rest in
  match budget with
  | O => Raise (InterpolationDepthError option section rawval)
  | S budget' =>
      (fix loop (fuel : nat) (rest : string) : result string :=
         match fuel with
         | O => Ok EmptyString
         | S fuel' =>
             match Str.split_at "%" rest with
             | None => Ok rest
             | Some (before, after) =>
                 match after with
                 | String "%" rest' =>
                     tail ← loop fuel' rest';
                     Ok (before +:+ "%" +:+ tail)
                 | String "(" body =>
                     match Str.split_at ")" body with
                     | Some (String c name, String "s" rest') =>
                         let var := optionxform (String c name) in
                         match map !! var with
                         | None =>
                             Raise (InterpolationMissingOptionError
                                      option section rawval var)
                         | Some v =>
                             expansion ←
                               (if Str.mem "%" v then
                                  basic_interpolate_some budget' parser option v
                                    section map
                                else Ok v);
                             tail ← loop fuel' rest';
                             Ok (before +:+ expansion +:+ tail)
                         end
                     | _ => Raise (InterpolationSyntaxError option section)
                     end
                 | _ => Raise (InterpolationSyntaxError option section)
                 end
             end
         end) (S (String.length rest)) rest
  end.

(** [self._interpolation.before_get(self, section, option, value, d)]:
    [_interpolate_some] at depth 1. *)
Definition before_get (parser : ConfigParser) (section option value : string)
    (defaults : gmap string string) : result string :=
  match _interpolation parser with
  | ExtendedInterpolation =>
      extended_interpolate_some MAX_INTERPOLATION_DEPTH parser option value
        section defaults
  | BasicInterpolation =>
      basic_interpolate_some MAX_INTERPOLATION_DEPTH parser option value
        section defaults
  end.

(** [parser.get(section, option)] *)
Definition get (parser : ConfigParser) (section option : string) : result string :=
  d ← _unify_values parser section;
  let option := optionxform option in
  match d !! option with
  | None => Raise (NoOptionError option section)
  | Some value => before_get parser section option value d
  end.

Definition has_option (parser : ConfigParser) (section option : string) : bool :=
  if bool_decide (section = EmptyString) || bool_decide (section = DEFAULTSECT) then
    bool_decide (is_Some (_defaults parser !! optionxform option))
  else
    match _sections parser !! section with
    | None => false
    | Some sectiondict =>
        bool_decide (is_Some (sectiondict !! optionxform option))
        || bool_decide (is_Some (_defaults parser !! optionxform option))
    end.

(** [SectionProxy]: a view on section [_name] of [_parser]. *)
Record SectionProxy : Type := mkSectionProxy {
  _parser : ConfigParser;
  _name : string
}.

(** [parser[key]] *)
Definition getitem (parser : ConfigParser) (key : string) : result SectionProxy :=
  if bool_decide (key ≠ DEFAULTSECT) && negb (has_section parser key) then
    Raise (KeyError key)
  else Ok {| _parser := parser; _name := key |}.

(** [proxy[key]] *)
Definition proxy_getitem (proxy : SectionProxy) (key : string) : result string :=
  if negb (has_option (_parser proxy) (_name proxy) key) then Raise (KeyError key)
  else get (_parser proxy) (_name proxy) key.

(** What a file holds, as [_read] sees it: either the exception raised
    while reading it, or the [DEFAULT] options and the sections it
    defines. *)
Inductive FileContent : Type :=
  | Unparseable (e : exn)
  | Parsed (defaults : gmap string string)
           (sections : gmap string (gmap string string)).

(** [parser.read_file(f)]: the options read are added to the parser's. *)
Definition read_file (parser : ConfigParser) (f : FileContent)
  : result ConfigParser :=
  match f with
  | Unparseable e => Raise e
  | Parsed defaults sections =>
      Ok {| _interpolation := _interpolation parser;
            _defaults := defaults ∪ _defaults parser;
            _sections :=
              union_with (fun new old => Some (new ∪ old))
                sections (_sections parser) |}
  end.

End configparser.

(** ** The Python 2 module [ConfigParser]

    Under [sys.version_info.major < 3] the code imports the Python 2 module
    [ConfigParser] under the name [configparser].  That module is not
    modelled: its parser class and the methods the code calls on it are the
    fields of an interface, about which nothing is assumed. *)

Record LegacyModule : Type := mkLegacyModule {
  legacy_parser : Type;
  (** [ConfigParser.ConfigParser()] *)
  legacy_new : legacy_parser;
  (** [parser.read_file(f)] *)
  legacy_read_file :
    legacy_parser -> configparser.FileContent -> result legacy_parser;
  (** [parser[section][parameter]] *)
  legacy_subscript : legacy_parser -> string -> string -> result string;
  (** [parser.get(section, parameter)] *)
  legacy_get : legacy_parser -> string -> string -> result string
}.

(** ** The process and its surroundings *)

Record World : Type := mkWorld {
  (** the files that exist, by path *)
  filesystem : gmap string configparser.FileContent;
  (** the file objects opened and not closed, newest first, by path *)
  open_files : list string;
  (** [os.environ] *)
  environ : gmap string string;
  (** whether the interpreter frees an object at the moment nothing refers
      to it any more (the reference counts of CPython), or leaves it to a
      later collection *)
  reference_counting : bool
}.

(** Code with effects: a result or an exception, and the world after. *)
Definition M (A : Type) : Type := World -> result A * World.

Definition M_ret {A : Type} (a : A) : M A := fun w => (Ok a, w).

Definition M_bind {A B : Type} (k : A -> M B) (m : M A) : M B :=
  fun w =>
    match m w with
    | (Ok a, w') => k a w'
    | (Raise e, w') => (Raise e, w')
    end.

#[global] Instance M_mret : MRet M := @M_ret.
#[global] Instance M_mbind : MBind M := @M_bind.

(** A call that only computes. *)
Definition lift {A : Type} (r : result A) : M A := fun w => (r, w).

(** [open(path)]: the file object is its content; it is recorded as open. *)
Definition open (path : string) : M configparser.FileContent :=
  fun w =>
    match filesystem w !! path with
    | None => (Raise (FileNotFoundError path), w)
    | Some content =>
        (Ok content,
         {| filesystem := filesystem w;
            open_files := path :: open_files w;
            environ := environ w;
            reference_counting := reference_counting w |})
    end.

(** One file object on [path], the newest, leaves the table. *)
Fixpoint remove_first (path : string) (paths : list string) : list string :=
  match paths with
  | [] => []
  | p :: paths' =>
      if bool_decide (p = path) then paths' else p :: remove_first path paths'
  end.

(** [f.close()]: no function of [ci_tools.py] calls it. *)
Definition close (path : string) : M unit :=
  fun w =>
    (Ok tt,
     {| filesystem := filesystem w;
        open_files := remove_first path (open_files w);
        environ := environ w;
        reference_counting := reference_counting w |}).

(** The last reference to an open file object goes away.  An interpreter
    that counts references closes the file then; another leaves it open
    until a collection that the model does not follow. *)
Definition drop_reference (path : string) : M unit :=
  fun w => if reference_counting w then close path w else (Ok tt, w).

(** The character of code 0. *)
Definition NUL : ascii := Ascii.ascii_of_nat 0.

(** [os.environ[name] = value] (Python 3, POSIX).  [putenv] refuses a name
    or a value with a NUL character and a name with [=]; [setenv] then
    fails on the empty name with [EINVAL].  The mapping is updated only
    after [putenv] has returned. *)
Definition environ_setitem (name value : string) : M unit :=
  fun w =>
    if Str.mem NUL name || Str.mem NUL value then
      (Raise (ValueError "embedded null byte"), w)
    else if Str.mem "=" name then
      (Raise (ValueError "illegal environment variable name"), w)
    else if bool_decide (name = EmptyString) then
      (Raise (OSError 22), w)
    else
      (Ok tt,
       {| filesystem := filesystem w;
          open_files := open_files w;
          environ := <[name := value]> (environ w);
          reference_counting := reference_counting w |}).

(** A generator decorated with [@contextlib.contextmanager] whose [yield] is
    not inside a [try]: the code before the [yield], which produces the
    yielded value, and the code after it. *)
Record GeneratorContextManager (A : Type) : Type := mkGeneratorContextManager {
  until_yield : M A;
  after_yield : M unit
}.
Arguments until_yield {A} _.
Arguments after_yield {A} _.

(** [with cm as x: body].  An exception before the [yield] leaves before the
    body runs.  An exception of the body is thrown into the generator at the
    [yield], which does not catch it: the code after the [yield] is skipped
    and the exception goes on to the caller.  Otherwise the generator is
    resumed and runs to its end. *)
Definition with_ {A B : Type} (cm : GeneratorContextManager A) (body : A -> M B)
  : M B :=
  fun w =>
    match until_yield cm w with
    | (Raise e, w1) => (Raise e, w1)
    | (Ok x, w1) =>
        match body x w1 with
        | (Raise e, w2) => (Raise e, w2)
        | (Ok b, w2) =>
            match after_yield cm w2 with
            | (Ok _, w3) => (Ok b, w3)
            | (Raise e, w3) => (Raise e, w3)
            end
        end
    end.

(** ** [ci_tools.py] *)

Module ci_tools.

Section interpreter.

(** The Python 2 module, used when [major < 3]. *)
Context (py2 : LegacyModule).

(** The host shell: the exit status of a command and the world it leaves. *)
Context (shell : string -> World -> Z * World).

(** A parser object is an instance of the class of the module that was
    imported. *)
Inductive Parser : Type :=
  | Modern (p : configparser.ConfigParser)
  | Legacy (p : legacy_parser py2).

(** [configparser.ConfigParser(interpolation=...)] in the module imported
    at lines 6-9: [ConfigParser] when [major < 3], [configparser]
    otherwise. *)
Definition ConfigParser (major : Z)
    (interpolation : option configparser.Interpolation) : Parser :=
  if major <? 3 then Legacy (legacy_new py2)
  else Modern (configparser.new
                 (default configparser.BasicInterpolation interpolation)).

(** Method calls go to the class of the object. *)
Definition read_file (parser : Parser) (f : configparser.FileContent)
  : result Parser :=
  match parser with
  | Modern p => Modern <$> configparser.read_file p f
  | Legacy p => Legacy <$> legacy_read_file py2 p f
  end.

(** [parser[section][parameter]] *)
Definition subscript (parser : Parser) (section parameter : string)
  : result string :=
  match parser with
  | Modern p =>
      proxy ← configparser.getitem p section;
      configparser.proxy_getitem proxy parameter
  | Legacy p => legacy_subscript py2 p section parameter
  end.

(** [parser.get(section, parameter)] *)
Definition get (parser : Parser) (section parameter : string) : result string :=
  match parser with
  | Modern p => configparser.get p section parameter
  | Legacy p => legacy_get py2 p section parameter
  end.

(** [subprocess.call(command, shell=True)]: the exit status is returned. *)
Definition subprocess_call (command : string) : M Z :=
  fun w => let (returncode, w') := shell command w in (Ok returncode, w').

(** [subprocess.run(command, shell=True, check=True)]: a non-zero exit
    status raises [CalledProcessError]. *)
Definition subprocess_run_check (command : string) : M Z :=
  fun w =>
    let (returncode, w') := shell command w in
    if returncode =? 0 then (Ok returncode, w')
    else (Raise (CalledProcessError returncode command), w').

Definition _get_config_parser (major : Z) : Parser :=
  if major =? 3 then
    ConfigParser major (Some configparser.ExtendedInterpolation)
  else
    ConfigParser major None.

(** The file object is the argument of [read_file] and nothing else refers
    to it: once [read_file] has returned, its last reference goes away.
    When [read_file] raises, the frames of the traceback still refer to the
    file object while the exception travels to the caller.  The function
    has no [close], no [with] on the file and no [try] around the
    [yield]. *)
Definition read_configuration (major : Z) (configuration_file : string)
  : GeneratorContextManager Parser :=
  {| until_yield :=
       let parser := _get_config_parser major in
       f ← open configuration_file;
       parser ← lift (read_file parser f);
       _ ← drop_reference configuration_file;
       mret parser;
     after_yield := mret tt |}.

Definition _get_value (major : Z) (parser : Parser) (section parameter : string)
  : result string :=
  value ← (if major =? 3 then subscript parser section parameter
           else get parser section parameter);
  Ok (Str.strip QUOTE value).

Definition _get_version (major : Z) (parser : Parser) : result string :=
  if major =? 3 then subscript parser "DEFAULT" "version"
  else get parser "DEFAULT" "version".

Definition get_current_configuration_values (major : Z)
    (configuration_file : string) : M (gmap string string) :=
  let configuration_values : gmap string string := ∅ in
  with_ (read_configuration major configuration_file) (fun parser =>
    v ← lift (_get_value major parser "package" "name");
    let configuration_values := <["name" := v]> configuration_values in
    v ← lift (_get_value major parser "package" "version");
    let configuration_values := <["version" := v]> configuration_values in
    v ← lift (_get_value major parser "package" "description");
    let configuration_values := <["description" := v]> configuration_values in
    v ← lift (_get_value major parser "package" "homepage");
    let configuration_values := <["homepage" := v]> configuration_values in
    mret configuration_values).

Definition get_app_name (major : Z) (configuration_file : string) : M string :=
  with_ (read_configuration major configuration_file) (fun parser =>
    app_name ← lift (_get_value major parser "DEFAULT" "app");
    mret app_name).

Definition get_environment_value (variable_name : string) : M string :=
  fun w =>
    match environ w !! variable_name with
    | Some value => (Ok value, w)
    | None => (Raise (KeyError variable_name), w)
    end.

Definition set_environment_value (variable_name variable_value : string)
  : M unit :=
  environ_setitem variable_name variable_value.

Definition run_console_command (major : Z) (command : string) : M unit :=
  if major <? 3 then
    _ ← subprocess_call command; mret tt
  else
    _ ← subprocess_run_check command; mret tt.

End interpreter.

Arguments Modern {py2} p.
Arguments Legacy {py2} p.

End ci_tools.

Import ci_tools.

(** ** Sample data

    Concrete inputs on which the model is run. *)

(** A value written between double quotes in the file. *)
Definition quoted (s : string) : string := QUOTE +:+ s +:+ QUOTE.

(** A Python 3 interpreter has no module [ConfigParser]: a stand-in whose
    every method raises, for running the model with [major = 3]. *)
Definition no_legacy_module : LegacyModule :=
  {| legacy_parser := unit;
     legacy_new := tt;
     legacy_read_file := fun _ _ => Raise (AttributeError "read_file");
     legacy_subscript := fun _ _ _ => Raise (AttributeError "__getitem__");
     legacy_get := fun _ _ _ => Raise (AttributeError "get") |}.

(** A shell in which every command exits with status [status] and changes
    nothing. *)
Definition shell_exiting (status : Z) : string -> World -> Z * World :=
  fun _ w => (status, w).

(** The [package] section of the spec's example. *)
Definition package_foo : gmap string string :=
  <["name" := quoted "foo"]>
    (<["version" := quoted "1.0"]>
       (<["description" := quoted "d"]>
          (<["homepage" := quoted "h"]> ∅))).

(** A [package] section that does not define [name]. *)
Definition package_without_name : gmap string string :=
  <["version" := quoted "1.0"]>
    (<["description" := quoted "d"]>
       (<["homepage" := quoted "h"]> ∅)).

(** A world whose only file is [Cargo.toml] with the given content, under
    an interpreter that counts references. *)
Definition world_with (content : configparser.FileContent) : World :=
  {| filesystem := {[ "Cargo.toml" := content ]};
     open_files := [];
     environ := ∅;
     reference_counting := true |}.

(** The same world under an interpreter that does not. *)
Definition world_without_counting (content : configparser.FileContent) : World :=
  {| filesystem := {[ "Cargo.toml" := content ]};
     open_files := [];
     environ := ∅;
     reference_counting := false |}.

(** [Cargo.toml] defines the four options in [package]. *)
Definition cargo_foo : configparser.FileContent :=
  configparser.Parsed ∅ {[ "package" := package_foo ]}.

(** [Cargo.toml] defines [name] in [DEFAULT] only. *)
Definition cargo_name_in_default : configparser.FileContent :=
  configparser.Parsed {[ "name" := quoted "fallback" ]}
    {[ "package" := package_without_name ]}.

(** [Cargo.toml] defines no [name] at all. *)
Definition cargo_without_name : configparser.FileContent :=
  configparser.Parsed ∅ {[ "package" := package_without_name ]}.

(** [Cargo.toml] cannot be parsed. *)
Definition cargo_malformed : configparser.FileContent :=
  configparser.Unparseable (MissingSectionHeaderError "Cargo.toml").


(** The parser after reading [cargo_foo]. *)
Definition parser_foo : configparser.ConfigParser :=
  {| configparser._interpolation := configparser.ExtendedInterpolation;
     configparser._defaults := ∅;
     configparser._sections := {[ "package" := package_foo ]} |}.

(** [Cargo.toml] names the application in [DEFAULT]; its section [package]
    has an [app] of its own. *)
Definition cargo_app : configparser.FileContent :=
  configparser.Parsed {[ "app" := quoted "test_common" ]}
    {[ "package" := <["app" := quoted "other"]> package_foo ]}.

(** [Cargo.toml] has an [app], but not in [DEFAULT]. *)
Definition cargo_app_in_package : configparser.FileContent :=
  configparser.Parsed ∅ {[ "package" := <["app" := quoted "other"]> package_foo ]}.

(** A parser whose [DEFAULT] gives the version, between quotes. *)
Definition parser_version : configparser.ConfigParser :=
  {| configparser._interpolation := configparser.ExtendedInterpolation;
     configparser._defaults := {[ "version" := quoted "1.0" ]};
     configparser._sections := {[ "package" := package_foo ]} |}.

(** A parser of Python 3 whose section [package] uses the marks of
    [ExtendedInterpolation]: a reference to an option of [DEFAULT], an
    escaped dollar, a dollar that is neither, and an option that refers to
    itself. *)
Definition parser_interpolated : configparser.ConfigParser :=
  {| configparser._interpolation := configparser.ExtendedInterpolation;
     configparser._defaults := {[ "app" := quoted "test_common" ]};
     configparser._sections :=
       {[ "package" :=
            <["name" := quoted "${app}"]>
              (<["price" := quoted "$$5"]>
                 (<["cost" := quoted "$5"]>
                    (<["loop" := "${loop}"]> ∅))) ]} |}.


(** [Cargo.toml] has no section [package]; [DEFAULT] defines the four
    options. *)
Definition cargo_without_package : configparser.FileContent :=
  configparser.Parsed package_foo ∅.

(** * Properties *)

(** ** Stripping the double quotes *)

Section strip_quotes.

Local Abbreviation q := dquote.
Local Abbreviation Q := QUOTE.

Lemma lstrip_cons (a : ascii) (s : string) :
  Str.lstrip Q (String a s) = if Ascii.eqb a q then Str.lstrip Q s else String a s.
Proof. simpl. rewrite orb_false_r. reflexivity. Qed.

Lemma rstrip_cons (a : ascii) (s : string) :
  Str.rstrip Q (String a s) =
  match Str.rstrip Q s with
  | EmptyString => if Ascii.eqb a q then EmptyString else String a EmptyString
  | r => String a r
  end.
Proof. simpl. rewrite orb_false_r. reflexivity. Qed.

Lemma app_cons (a : ascii) (s t : string) : String a s +:+ t = String a (s +:+ t).
Proof. reflexivity. Qed.

(** [lstrip] removes a run of quotes at the front and stops at the first
    other character. *)
Lemma lstrip_decompose (s : string) :
  exists i, s = Str.replicate i q +:+ Str.lstrip Q s
            /\ Str.first (Str.lstrip Q s) <> Some q.
Proof.
  induction s as [|a s [i [Hs Hf]]].
  - exists O. split; [reflexivity | discriminate].
  - rewrite lstrip_cons. destruct (Ascii.eqb_spec a q) as [->|Ha].
    + exists (S i). split; [exact (f_equal (String q) Hs) | exact Hf].
    + exists O. split; [reflexivity | simpl; congruence].
Qed.

(** [rstrip] removes a run of quotes at the back. *)
Lemma rstrip_decompose (s : string) :
  exists j, s = Str.rstrip Q s +:+ Str.replicate j q
            /\ Str.last (Str.rstrip Q s) <> Some q.
Proof.
  induction s as [|a s [j [Hs Hl]]].
  - exists O. split; [reflexivity | discriminate].
  - rewrite rstrip_cons. destruct (Str.rstrip Q s) as [|b r] eqn:Hr.
    + destruct (Ascii.eqb_spec a q) as [->|Ha].
      * exists (S j). split; [exact (f_equal (String q) Hs) | discriminate].
      * exists j. split; [exact (f_equal (String a) Hs) | simpl; congruence].
    + exists j. split; [exact (f_equal (String a) Hs) | exact Hl].
Qed.

(** [rstrip] keeps the first character of a string that does not start
    with a quote. *)
Lemma rstrip_first (s : string) :
  Str.first s <> Some q -> Str.first (Str.rstrip Q s) <> Some q.
Proof.
  destruct s as [|a s]; [discriminate|].
  intros Ha. rewrite rstrip_cons. destruct (Str.rstrip Q s).
  - destruct (Ascii.eqb a q); [discriminate | exact Ha].
  - exact Ha.
Qed.




(** The result of [strip]: the value without the quotes at its two ends. *)
Lemma strip_decompose (s : string) :
  exists i j,
    s = Str.replicate i q +:+ Str.strip Q s +:+ Str.replicate j q
    /\ Str.first (Str.strip Q s) <> Some q
    /\ Str.last (Str.strip Q s) <> Some q.
Proof.
  destruct (lstrip_decompose s) as [i [Hi Hf]].
  destruct (rstrip_decompose (Str.lstrip Q s)) as [j [Hj Hl]].
  exists i, j. unfold Str.strip. split; [|split].
  - rewrite <- Hj. exact Hi.
  - apply rstrip_first, Hf.
  - exact Hl.
Qed.







End strip_quotes.

(** ** The process environment *)

Section environment.

(** A name without NUL and without [=] that is not empty, with a value
    without NUL, is accepted: the entry is written. *)
Lemma environ_setitem_valid (name value : string) (w : World) :
  Str.mem NUL name = false ->
  Str.mem NUL value = false ->
  Str.mem "=" name = false ->
  name <> EmptyString ->
  environ_setitem name value w
  = (Ok tt,
     {| filesystem := filesystem w;
        open_files := open_files w;
        environ := <[name := value]> (environ w);
        reference_counting := reference_counting w |}).
Proof.
  intros Hname Hvalue Hequal Hempty. unfold environ_setitem.
  rewrite Hname, Hvalue, Hequal, (bool_decide_eq_false_2 _ Hempty). reflexivity.
Qed.


(** The two outcomes of the assignment. *)
Lemma environ_setitem_cases (name value : string) (w : World) :
  environ_setitem name value w
  = (Ok tt,
     {| filesystem := filesystem w;
        open_files := open_files w;
        environ := <[name := value]> (environ w);
        reference_counting := reference_counting w |})
  \/ exists e, environ_setitem name value w = (Raise e, w).
Proof.
  unfold environ_setitem.
  destruct (_ || _); [eauto|]. destruct (Str.mem "=" name); [eauto|].
  destruct (bool_decide _); eauto.
Qed.






(** C10. [set_environment_value name value] changes the entry of [name]
    and nothing else: every other variable is present or absent as
    before, with the value it had, and the files and the open file
    objects are untouched. *)
Theorem set_environment_value_frame (name value other : string) (w : World) :
  other <> name ->
  environ (snd (set_environment_value name value w)) !! other = environ w !! other
  /\ filesystem (snd (set_environment_value name value w)) = filesystem w
  /\ open_files (snd (set_environment_value name value w)) = open_files w.
Proof.
  intros Hother. unfold set_environment_value.
  destruct (environ_setitem_cases name value w) as [->|[e ->]]; simpl.
  - split; [|split; reflexivity]. apply lookup_insert_ne. congruence.
  - repeat split; reflexivity.
Qed.

Lemma set_environment_value_frame_witness :
  environ (snd (set_environment_value "A" "1"
                  (snd (set_environment_value "B" "2" (world_with cargo_foo)))))
    !! "B"
  = environ (snd (set_environment_value "B" "2" (world_with cargo_foo))) !! "B"
  /\ filesystem (snd (set_environment_value "A" "1"
                        (snd (set_environment_value "B" "2" (world_with cargo_foo)))))
     = filesystem (snd (set_environment_value "B" "2" (world_with cargo_foo)))
  /\ open_files (snd (set_environment_value "A" "1"
                        (snd (set_environment_value "B" "2" (world_with cargo_foo)))))
     = open_files (snd (set_environment_value "B" "2" (world_with cargo_foo))).
Proof.
  apply (set_environment_value_frame "A" "1" "B"
           (snd (set_environment_value "B" "2" (world_with cargo_foo)))).
  discriminate.
Defined.

End environment.

(** ** Running a command *)

Section commands.

Context (shell : string -> World -> Z * World).

(** On Python 3, [subprocess.run(..., check=True)]: the call returns
    normally exactly when the command exits with status 0, and raises
    [CalledProcessError] otherwise. *)
Lemma run_console_command_modern (major : Z) (command : string) (w : World) :
  3 <= major ->
  run_console_command shell major command w
  = if fst (shell command w) =? 0
    then (Ok tt, snd (shell command w))
    else (Raise (CalledProcessError (fst (shell command w)) command),
          snd (shell command w)).
Proof.
  intros Hmajor. unfold run_console_command.
  destruct (Z.ltb_spec major 3) as [Hlt|_]; [lia|].
  unfold mbind, M_mbind, M_bind, subprocess_run_check.
  destruct (shell command w) as [returncode w']. simpl.
  destruct (returncode =? 0); reflexivity.
Qed.

(** C5, the Python 2 branch.  Under [major < 3] the command is run with
    [subprocess.call], whose return value is dropped:
    [run_console_command] returns normally whatever the exit status, so a
    command that fails is not reported to the caller. *)
Theorem run_console_command_legacy_ignores_status
    (major : Z) (command : string) (w : World) :
  major < 3 ->
  run_console_command shell major command w = (Ok tt, snd (shell command w)).
Proof.
  intros Hmajor. unfold run_console_command.
  destruct (Z.ltb_spec major 3) as [_|Hge]; [|lia].
  unfold mbind, M_mbind, M_bind, subprocess_call.
  destruct (shell command w) as [returncode w']. reflexivity.
Qed.

End commands.

Lemma run_console_command_legacy_ignores_status_witness :
  fst (shell_exiting 1 "exit 1" (world_with cargo_foo)) = 1
  /\ run_console_command (shell_exiting 1) 2 "exit 1" (world_with cargo_foo)
     = (Ok tt, snd (shell_exiting 1 "exit 1" (world_with cargo_foo))).
Proof.
  split; [reflexivity|].
  apply (run_console_command_legacy_ignores_status (shell_exiting 1) 2 "exit 1"
           (world_with cargo_foo)).
  lia.
Defined.

(** ** [_get_value]: the value of the parser without its quotes *)

Section get_value.

Context (py2 : LegacyModule).

(** [_get_value] is [strip] applied to what the parser returns, on both
    branches of the version test. *)
Lemma _get_value_strip (major : Z) (parser : Parser py2)
    (section parameter value : string) :
  (if major =? 3 then subscript py2 parser section parameter
   else get py2 parser section parameter) = Ok value ->
  _get_value py2 major parser section parameter = Ok (Str.strip QUOTE value).
Proof. intros Hvalue. unfold _get_value. rewrite Hvalue. reflexivity. Qed.

(** An exception of the parser goes through [_get_value] unchanged. *)
Lemma _get_value_raise (major : Z) (parser : Parser py2)
    (section parameter : string) (e : exn) :
  (if major =? 3 then subscript py2 parser section parameter
   else get py2 parser section parameter) = Raise e ->
  _get_value py2 major parser section parameter = Raise e.
Proof. intros Hvalue. unfold _get_value. rewrite Hvalue. reflexivity. Qed.


(** C9. [_get_value] removes every double quote at the two ends of the
    value and nothing else: the value is the result [r] with a run of
    quotes before it and a run of quotes after it, and [r] neither starts
    nor ends with a quote.  The runs may have any lengths, also 0 on one
    side, and quotes inside [r] are kept. *)
Theorem get_value_strips_all_boundary_quotes (major : Z) (parser : Parser py2)
    (section parameter value : string) :
  (if major =? 3 then subscript py2 parser section parameter
   else get py2 parser section parameter) = Ok value ->
  exists r i j,
    _get_value py2 major parser section parameter = Ok r
    /\ value = Str.replicate i dquote +:+ r +:+ Str.replicate j dquote
    /\ Str.first r <> Some dquote
    /\ Str.last r <> Some dquote.
Proof.
  intros Hvalue.
  destruct (strip_decompose value) as [i [j [Hdecompose [Hfirst Hlast]]]].
  exists (Str.strip QUOTE value), i, j.
  rewrite (_get_value_strip _ _ _ _ _ Hvalue). auto.
Qed.

End get_value.

(** The quotes of C9's examples: one side only, repeated, and inside. *)
Example strip_one_sided : Str.strip QUOTE (QUOTE +:+ "foo") = "foo".
Proof. reflexivity. Qed.

Example strip_repeated :
  Str.strip QUOTE (QUOTE +:+ QUOTE +:+ "foo" +:+ QUOTE +:+ QUOTE) = "foo".
Proof. reflexivity. Qed.

Example strip_interior :
  Str.strip QUOTE (QUOTE +:+ "a" +:+ QUOTE +:+ "b" +:+ QUOTE) = "a" +:+ QUOTE +:+ "b".
Proof. reflexivity. Qed.

Lemma get_value_strips_all_boundary_quotes_witness :
  exists r i j,
    _get_value no_legacy_module 3 (Modern parser_foo) "package" "name" = Ok r
    /\ quoted "foo" = Str.replicate i dquote +:+ r +:+ Str.replicate j dquote
    /\ Str.first r <> Some dquote
    /\ Str.last r <> Some dquote.
Proof.
  apply (get_value_strips_all_boundary_quotes no_legacy_module 3 (Modern parser_foo)
           "package" "name" (quoted "foo")).
  vm_compute. reflexivity.
Defined.

(** ** [read_configuration] and the file it opens *)

Section file_objects.

Context (py2 : LegacyModule).

(** The code before the [yield]: the file is opened, then read; the file
    object is dropped when [read_file] has returned, and an interpreter
    that counts references closes it then. *)
Lemma until_yield_read_configuration (major : Z) (path : string) (w : World) :
  until_yield (read_configuration py2 major path) w
  = match filesystem w !! path with
    | None => (Raise (FileNotFoundError path), w)
    | Some content =>
        (read_file py2 (_get_config_parser py2 major) content,
         if is_ok (read_file py2 (_get_config_parser py2 major) content)
            && reference_counting w
         then w
         else {| filesystem := filesystem w;
                 open_files := path :: open_files w;
                 environ := environ w;
                 reference_counting := reference_counting w |})
    end.
Proof.
  unfold read_configuration, until_yield, mbind, M_mbind, M_bind, open, lift.
  destruct (filesystem w !! path); [|reflexivity].
  destruct (read_file py2 (_get_config_parser py2 major) f); [|reflexivity].
  destruct w as [files handles variables counting].
  unfold drop_reference, close. destruct counting; simpl; [|reflexivity].
  rewrite (bool_decide_eq_true_2 (path = path) eq_refl). reflexivity.
Qed.

(** The open file objects after a [with read_configuration(...)]
    statement whose body leaves them as they are. *)
Lemma with_read_configuration_open_files {B : Type} (major : Z)
    (path : string) (body : Parser py2 -> M B) (w : World)
    (content : configparser.FileContent) :
  filesystem w !! path = Some content ->
  (forall parser w0, open_files (snd (body parser w0)) = open_files w0) ->
  open_files (snd (with_ (read_configuration py2 major path) body w))
  = if is_ok (read_file py2 (_get_config_parser py2 major) content)
       && reference_counting w
    then open_files w else path :: open_files w.
Proof.
  intros Hfile Hbody. unfold with_.
  rewrite until_yield_read_configuration, Hfile.
  destruct (read_file py2 (_get_config_parser py2 major) content)
    as [parser|e]; [|reflexivity].
  match goal with
  | |- context [body parser ?w1] =>
      specialize (Hbody parser w1); destruct (body parser w1) as [[b|e] w2]
  end; simpl in *; rewrite Hbody; destruct (reference_counting w); reflexivity.
Qed.


(** A lookup does not touch the world. *)
Lemma lift_bind_open_files {A B : Type} (r : result A) (k : A -> M B) (w : World) :
  (forall a w0, open_files (snd (k a w0)) = open_files w0) ->
  open_files (snd ((a ← lift r; k a) w)) = open_files w.
Proof.
  intros Hk. unfold mbind, M_mbind, M_bind, lift.
  destruct r as [a|e]; [apply Hk | reflexivity].
Qed.

(** The bodies of the two readers are lookups. *)
Lemma readers_bodies_open_files (major : Z) (parser : Parser py2) (w0 : World) :
  open_files
    (snd ((v ← lift (_get_value py2 major parser "package" "name");
           let configuration_values := <["name" := v]> (∅ : gmap string string) in
           v ← lift (_get_value py2 major parser "package" "version");
           let configuration_values := <["version" := v]> configuration_values in
           v ← lift (_get_value py2 major parser "package" "description");
           let configuration_values := <["description" := v]> configuration_values in
           v ← lift (_get_value py2 major parser "package" "homepage");
           let configuration_values := <["homepage" := v]> configuration_values in
           mret configuration_values) w0))
  = open_files w0
  /\ open_files
       (snd ((app_name ← lift (_get_value py2 major parser "DEFAULT" "app");
              mret app_name) w0))
     = open_files w0.
Proof.
  split; repeat (apply lift_bind_open_files; intros ? ?); reflexivity.
Qed.

(** C4.  The spec promises that the file handle is released on every way
    out of the scope; the code does not close the file anywhere, and the
    handle goes only when the interpreter reclaims the file object.  For a
    file that exists:
    (1) when [read_file] raises, both readers raise that exception and the
    handle is still open when it reaches the caller, with any interpreter;
    (2) with an interpreter that does not count references the handle is
    still open on every way out of the [with] statement, for every body
    that leaves the open file objects as they are, and so for both
    readers;
    (3) with an interpreter that counts references and a file that is read
    without an exception, the handle is gone before the body runs. *)
Theorem read_configuration_never_closes (major : Z) (path : string)
    (w : World) (content : configparser.FileContent) :
  filesystem w !! path = Some content ->
  (forall e,
      read_file py2 (_get_config_parser py2 major) content = Raise e ->
      fst (get_current_configuration_values py2 major path w) = Raise e
      /\ open_files (snd (get_current_configuration_values py2 major path w))
         = path :: open_files w
      /\ fst (get_app_name py2 major path w) = Raise e
      /\ open_files (snd (get_app_name py2 major path w)) = path :: open_files w)
  /\ (reference_counting w = false ->
      (forall (B : Type) (body : Parser py2 -> M B),
          (forall parser w0, open_files (snd (body parser w0)) = open_files w0) ->
          open_files (snd (with_ (read_configuration py2 major path) body w))
          = path :: open_files w)
      /\ open_files (snd (get_current_configuration_values py2 major path w))
         = path :: open_files w
      /\ open_files (snd (get_app_name py2 major path w)) = path :: open_files w)
  /\ (reference_counting w = true ->
      is_ok (read_file py2 (_get_config_parser py2 major) content) = true ->
      forall (B : Type) (body : Parser py2 -> M B),
        (forall parser w0, open_files (snd (body parser w0)) = open_files w0) ->
        open_files (snd (with_ (read_configuration py2 major path) body w))
        = open_files w).
Proof.
  intros Hfile. split; [|split].
  - intros e Hread.
    unfold get_current_configuration_values, get_app_name, with_.
    rewrite until_yield_read_configuration, Hfile, Hread. repeat split; reflexivity.
  - intros Hcounting. split; [|split].
    + intros B body Hbody.
      rewrite (with_read_configuration_open_files major path body w content Hfile
                 Hbody), Hcounting, andb_false_r. reflexivity.
    + unfold get_current_configuration_values.
      rewrite (with_read_configuration_open_files major path _ w content Hfile),
        Hcounting, andb_false_r; [reflexivity|].
      intros parser w0. apply (readers_bodies_open_files major parser w0).
    + unfold get_app_name.
      rewrite (with_read_configuration_open_files major path _ w content Hfile),
        Hcounting, andb_false_r; [reflexivity|].
      intros parser w0. apply (readers_bodies_open_files major parser w0).
  - intros Hcounting Hread B body Hbody.
    rewrite (with_read_configuration_open_files major path body w content Hfile
               Hbody), Hcounting, Hread. reflexivity.
Qed.

End file_objects.

Lemma read_configuration_never_closes_witness :
  fst (get_current_configuration_values no_legacy_module 3 "Cargo.toml"
         (world_with cargo_malformed))
  = Raise (MissingSectionHeaderError "Cargo.toml")
  /\ open_files
       (snd (get_current_configuration_values no_legacy_module 3 "Cargo.toml"
               (world_with cargo_malformed)))
     = "Cargo.toml" :: open_files (world_with cargo_malformed)
  /\ fst (get_app_name no_legacy_module 3 "Cargo.toml" (world_with cargo_malformed))
     = Raise (MissingSectionHeaderError "Cargo.toml")
  /\ open_files
       (snd (get_app_name no_legacy_module 3 "Cargo.toml"
               (world_with cargo_malformed)))
     = "Cargo.toml" :: open_files (world_with cargo_malformed).
Proof.
  apply (proj1 (read_configuration_never_closes no_legacy_module 3 "Cargo.toml"
                  (world_with cargo_malformed) cargo_malformed eq_refl)
           (MissingSectionHeaderError "Cargo.toml")).
  reflexivity.
Defined.

(** The runs behind C4: a file that cannot be parsed leaves its handle open
    under an interpreter that counts references; a file that parses leaves
    it open under an interpreter that does not. *)
Example file_not_released_on_exit :
  open_files (world_with cargo_malformed) = []
  /\ open_files
       (snd (get_current_configuration_values no_legacy_module 3 "Cargo.toml"
               (world_with cargo_malformed)))
     = ["Cargo.toml"]
  /\ is_ok (fst (get_current_configuration_values no_legacy_module 3 "Cargo.toml"
                   (world_without_counting cargo_foo))) = true
  /\ open_files
       (snd (get_current_configuration_values no_legacy_module 3 "Cargo.toml"
               (world_without_counting cargo_foo)))
     = ["Cargo.toml"].
Proof. vm_compute. repeat split. Qed.

(** ** Lookups in a [configparser.ConfigParser] *)

Section lookups.

Import configparser.

Lemma read_file_new (i : Interpolation) (defaults : gmap string string)
    (sections : gmap string (gmap string string)) :
  configparser.read_file (new i) (Parsed defaults sections)
  = Ok {| _interpolation := i; _defaults := defaults; _sections := sections |}.
Proof.
  unfold configparser.read_file, new. simpl.
  rewrite (right_id_L ∅ (∪)), (right_id ∅ (union_with _)). reflexivity.
Qed.

Lemma split_at_absent (c : ascii) (s : string) :
  Str.mem c s = false -> Str.split_at c s = None.
Proof.
  induction s as [|a s IH]; [reflexivity|].
  intros H. change (Ascii.eqb c a || Str.mem c s = false) in H.
  apply orb_false_elim in H. destruct H as [Hca Hs].
  simpl. rewrite Ascii.eqb_sym, Hca, (IH Hs). reflexivity.
Qed.

(** At any depth within the limit, a value without [$] leaves the loop of
    [ExtendedInterpolation] at its first test. *)
Lemma extended_interpolate_some_plain (budget : nat) (parser : ConfigParser)
    (option value section : string) (map : gmap string string) :
  Str.mem "$" value = false ->
  extended_interpolate_some (S budget) parser option value section map = Ok value.
Proof.
  intros Hdollar. simpl. rewrite (split_at_absent _ _ Hdollar). reflexivity.
Qed.

(** The same for [BasicInterpolation] and [%]. *)
Lemma basic_interpolate_some_plain (budget : nat) (parser : ConfigParser)
    (option value section : string) (map : gmap string string) :
  Str.mem "%" value = false ->
  basic_interpolate_some (S budget) parser option value section map = Ok value.
Proof.
  intros Hpercent. simpl. rewrite (split_at_absent _ _ Hpercent). reflexivity.
Qed.

(** A value without [$] (for [ExtendedInterpolation]) or without [%] (for
    [BasicInterpolation]) is returned by [before_get] as it is. *)
Lemma before_get_plain (parser : ConfigParser) (section option value : string)
    (defaults : gmap string string) :
  Str.mem "$" value = false ->
  Str.mem "%" value = false ->
  before_get parser section option value defaults = Ok value.
Proof.
  intros Hdollar Hpercent. unfold before_get.
  destruct (_interpolation parser).
  - exact (basic_interpolate_some_plain _ parser option value section defaults
             Hpercent).
  - exact (extended_interpolate_some_plain _ parser option value section defaults
             Hdollar).
Qed.

(** [has_option] when [DEFAULT] defines the option. *)
Lemma has_option_default (parser : ConfigParser) (section option : string) :
  is_Some (_sections parser !! section) ->
  is_Some (_defaults parser !! optionxform option) ->
  has_option parser section option = true.
Proof.
  intros [sec Hsec] Hdefault. unfold has_option. rewrite Hsec.
  rewrite (bool_decide_eq_true_2 _ Hdefault), orb_true_r.
  destruct (_ || _); reflexivity.
Qed.

(** [has_option] when a section other than [DEFAULT] defines the option. *)
Lemma has_option_section (parser : ConfigParser) (section option : string)
    (sec : gmap string string) :
  section <> EmptyString ->
  section <> DEFAULTSECT ->
  _sections parser !! section = Some sec ->
  is_Some (sec !! optionxform option) ->
  has_option parser section option = true.
Proof.
  intros Hempty Hdefault Hsec Hoption. unfold has_option.
  rewrite (bool_decide_eq_false_2 _ Hempty), (bool_decide_eq_false_2 _ Hdefault).
  simpl. rewrite Hsec, (bool_decide_eq_true_2 _ Hoption). reflexivity.
Qed.

(** [has_option] when neither the section nor [DEFAULT] defines the
    option. *)
Lemma has_option_nowhere (parser : ConfigParser) (section option : string) :
  _defaults parser !! optionxform option = None ->
  (forall sec, _sections parser !! section = Some sec ->
               sec !! optionxform option = None) ->
  has_option parser section option = false.
Proof.
  intros Hdefault Hsection. unfold has_option. rewrite Hdefault.
  assert (Hnone : bool_decide (is_Some (@None string)) = false)
    by (apply bool_decide_eq_false_2; intros [? ?]; discriminate).
  rewrite Hnone. destruct (_ || _); [reflexivity|].
  destruct (_sections parser !! section) as [sec|] eqn:Hsec; [|reflexivity].
  rewrite (Hsection sec eq_refl), Hnone. reflexivity.
Qed.

Context (py2 : LegacyModule).

(** What the parser returns when the option is defined for the section,
    by the section or by [DEFAULT]: the raw value, interpolated. *)
Lemma retrieve_defined (major : Z) (parser : ConfigParser)
    (section key value : string) (sec : gmap string string) :
  3 <= major ->
  _sections parser !! section = Some sec ->
  (sec ∪ _defaults parser) !! optionxform key = Some value ->
  has_option parser section key = true ->
  (if major =? 3 then subscript py2 (Modern parser) section key
   else ci_tools.get py2 (Modern parser) section key)
  = before_get parser section (optionxform key) value (sec ∪ _defaults parser).
Proof.
  intros Hmajor Hsec Hvalue Hhas.
  assert (Hget : configparser.get parser section key
                 = before_get parser section (optionxform key) value
                     (sec ∪ _defaults parser)).
  { unfold configparser.get, _unify_values. rewrite Hsec. simpl.
    rewrite Hvalue. reflexivity. }
  destruct (major =? 3); [|exact Hget].
  unfold subscript, getitem, has_section. rewrite Hsec.
  rewrite (bool_decide_eq_true_2 (is_Some (Some sec)) (mk_is_Some _ _ eq_refl)).
  rewrite andb_false_r. simpl.
  unfold proxy_getitem. simpl. rewrite Hhas. exact Hget.
Qed.

(** What the parser does when the option is defined nowhere: a lookup
    error, [KeyError] from the subscripts and [NoSectionError] or
    [NoOptionError] from [get]. *)
Lemma retrieve_undefined (major : Z) (parser : ConfigParser)
    (section key : string) :
  3 <= major ->
  _defaults parser !! optionxform key = None ->
  (forall sec, _sections parser !! section = Some sec ->
               sec !! optionxform key = None) ->
  exists e,
    (if major =? 3 then subscript py2 (Modern parser) section key
     else ci_tools.get py2 (Modern parser) section key) = Raise e
    /\ lookup_error e = true.
Proof.
  intros Hmajor Hdefault Hsection.
  destruct (major =? 3).
  - unfold subscript, getitem.
    destruct (bool_decide (section ≠ DEFAULTSECT) && negb (has_section parser section)).
    + exists (KeyError section). split; reflexivity.
    + simpl. unfold proxy_getitem. simpl.
      rewrite (has_option_nowhere _ _ _ Hdefault Hsection).
      exists (KeyError key). split; reflexivity.
  - unfold ci_tools.get, configparser.get, _unify_values.
    destruct (_sections parser !! section) as [sec|] eqn:Hsec.
    + simpl. rewrite (lookup_union_None_2 _ _ _ (Hsection sec eq_refl) Hdefault).
      eexists. split; reflexivity.
    + destruct (bool_decide (section ≠ DEFAULTSECT)).
      * eexists. split; reflexivity.
      * simpl. rewrite (left_id_L ∅ (∪)), Hdefault.
        eexists. split; reflexivity.
Qed.

End lookups.

(** ** Options that are missing *)

Section missing_options.

Import configparser.
Context (py2 : LegacyModule).

(** A section that the document does not have. *)
Lemma retrieve_no_section (major : Z) (parser : ConfigParser)
    (section key : string) :
  section <> "DEFAULT" ->
  _sections parser !! section = None ->
  (if major =? 3 then subscript py2 (Modern parser) section key
   else ci_tools.get py2 (Modern parser) section key)
  = Raise (if major =? 3 then KeyError section else NoSectionError section).
Proof.
  intros Hdefault Hsection.
  assert (Hdecide : bool_decide (section ≠ DEFAULTSECT) = true)
    by (apply bool_decide_eq_true_2; exact Hdefault).
  destruct (major =? 3).
  - unfold subscript, getitem, has_section. rewrite Hdecide, Hsection.
    rewrite (bool_decide_eq_false_2 (is_Some (@None (gmap string string))))
      by (intros [? ?]; discriminate).
    reflexivity.
  - unfold ci_tools.get, configparser.get, _unify_values.
    rewrite Hsection, Hdecide. reflexivity.
Qed.


End missing_options.



(** ** [get_current_configuration_values] *)

Section configuration_values.

Import configparser.
Context (py2 : LegacyModule).

(** On Python 3 and later the parser bound by the [with] statement holds
    what the file defines. *)
Lemma read_file_modern (major : Z) (defaults : gmap string string)
    (sections : gmap string (gmap string string)) :
  3 <= major ->
  ci_tools.read_file py2 (_get_config_parser py2 major) (Parsed defaults sections)
  = Ok (Modern {| _interpolation :=
                    if major =? 3 then ExtendedInterpolation
                    else BasicInterpolation;
                  _defaults := defaults;
                  _sections := sections |}).
Proof.
  intros Hmajor. unfold _get_config_parser, ci_tools.ConfigParser.
  destruct (Z.ltb_spec major 3) as [Hlt|_]; [lia|].
  destruct (major =? 3); unfold ci_tools.read_file, default;
    cbn [from_option default id]; rewrite read_file_new; reflexivity.
Qed.

(** The function is its four lookups in order: the first exception ends
    it, and the dictionary is returned only after the fourth lookup. *)
Lemma get_current_configuration_values_lookups (major : Z) (path : string)
    (w : World) (content : FileContent) (parser : Parser py2) :
  filesystem w !! path = Some content ->
  ci_tools.read_file py2 (_get_config_parser py2 major) content = Ok parser ->
  fst (get_current_configuration_values py2 major path w)
  = (name ← _get_value py2 major parser "package" "name";
     version ← _get_value py2 major parser "package" "version";
     description ← _get_value py2 major parser "package" "description";
     homepage ← _get_value py2 major parser "package" "homepage";
     Ok (<["homepage" := homepage]>
           (<["description" := description]>
              (<["version" := version]> (<["name" := name]> ∅))))).
Proof.
  intros Hfile Hread. unfold get_current_configuration_values, with_.
  rewrite until_yield_read_configuration, Hfile, Hread.
  unfold mbind, M_mbind, M_bind, lift, result_mbind, result_bind.
  destruct (_get_value py2 major parser "package" "name"); [|reflexivity].
  destruct (_get_value py2 major parser "package" "version"); [|reflexivity].
  destruct (_get_value py2 major parser "package" "description"); [|reflexivity].
  destruct (_get_value py2 major parser "package" "homepage"); reflexivity.
Qed.

(** A quoted value without interpolation marks, defined by a section other
    than [DEFAULT], is returned without its quotes. *)
Lemma _get_value_defined (major : Z) (parser : ConfigParser)
    (section key value : string) (sec : gmap string string) :
  3 <= major ->
  section <> EmptyString ->
  section <> DEFAULTSECT ->
  _sections parser !! section = Some sec ->
  sec !! optionxform key = Some value ->
  Str.mem "$" value = false ->
  Str.mem "%" value = false ->
  _get_value py2 major (Modern parser) section key = Ok (Str.strip QUOTE value).
Proof.
  intros Hmajor Hempty Hdefault Hsec Hkey Hdollar Hpercent.
  apply _get_value_strip.
  rewrite (retrieve_defined py2 major parser section key value sec Hmajor Hsec).
  - apply before_get_plain; assumption.
  - apply lookup_union_Some_l, Hkey.
  - apply (has_option_section parser section key sec); try assumption.
    rewrite Hkey. eauto.
Qed.

(** The same for a value that the section or, failing that, [DEFAULT]
    defines. *)
Lemma _get_value_union (major : Z) (parser : ConfigParser)
    (section key value : string) (sec : gmap string string) :
  3 <= major ->
  section <> EmptyString ->
  section <> DEFAULTSECT ->
  _sections parser !! section = Some sec ->
  (sec ∪ _defaults parser) !! optionxform key = Some value ->
  Str.mem "$" value = false ->
  Str.mem "%" value = false ->
  _get_value py2 major (Modern parser) section key = Ok (Str.strip QUOTE value).
Proof.
  intros Hmajor Hempty Hdefault Hsec Hkey Hdollar Hpercent.
  apply _get_value_strip.
  rewrite (retrieve_defined py2 major parser section key value sec Hmajor Hsec Hkey).
  - apply before_get_plain; assumption.
  - destruct (sec !! optionxform key) as [v|] eqn:Hsection.
    + apply (has_option_section parser section key sec); try assumption.
      rewrite Hsection. eauto.
    + rewrite (lookup_union_r _ _ _ Hsection) in Hkey.
      apply has_option_default; [rewrite Hsec | rewrite Hkey]; eauto.
Qed.

(** C1. On Python 3 and later, for every configuration file whose section
    [package] defines [name] as ["foo"], [version] as ["1.0"],
    [description] as ["d"] and [homepage] as ["h"] (quotes included, as the
    file has them), whatever else the file defines,
    [get_current_configuration_values] returns exactly the dictionary
    [{name: foo, version: 1.0, description: d, homepage: h}]. *)
Theorem get_current_configuration_values_package (major : Z) (path : string)
    (w : World) (defaults : gmap string string)
    (sections : gmap string (gmap string string)) (package : gmap string string) :
  3 <= major ->
  filesystem w !! path = Some (Parsed defaults sections) ->
  sections !! "package" = Some package ->
  package !! "name" = Some (quoted "foo") ->
  package !! "version" = Some (quoted "1.0") ->
  package !! "description" = Some (quoted "d") ->
  package !! "homepage" = Some (quoted "h") ->
  fst (get_current_configuration_values py2 major path w)
  = Ok {[ "name" := "foo"; "version" := "1.0";
          "description" := "d"; "homepage" := "h" ]}.
Proof.
  intros Hmajor Hfile Hpackage Hname Hversion Hdescription Hhomepage.
  rewrite (get_current_configuration_values_lookups major path w _ _ Hfile
             (read_file_modern major defaults sections Hmajor)).
  rewrite (_get_value_defined major _ "package" "name" (quoted "foo") package);
    [|assumption|discriminate|discriminate|assumption|assumption
     |reflexivity|reflexivity].
  rewrite (_get_value_defined major _ "package" "version" (quoted "1.0") package);
    [|assumption|discriminate|discriminate|assumption|assumption
     |reflexivity|reflexivity].
  rewrite (_get_value_defined major _ "package" "description" (quoted "d") package);
    [|assumption|discriminate|discriminate|assumption|assumption
     |reflexivity|reflexivity].
  rewrite (_get_value_defined major _ "package" "homepage" (quoted "h") package);
    [|assumption|discriminate|discriminate|assumption|assumption
     |reflexivity|reflexivity].
  vm_compute. reflexivity.
Qed.

End configuration_values.

Lemma get_current_configuration_values_package_witness :
  fst (get_current_configuration_values no_legacy_module 3 "Cargo.toml"
         (world_with cargo_foo))
  = Ok {[ "name" := "foo"; "version" := "1.0";
          "description" := "d"; "homepage" := "h" ]}.
Proof.
  apply (get_current_configuration_values_package no_legacy_module 3 "Cargo.toml"
           (world_with cargo_foo) ∅ {[ "package" := package_foo ]} package_foo).
  - lia.
  - reflexivity.
  - reflexivity.
  - reflexivity.
  - reflexivity.
  - reflexivity.
  - reflexivity.
Defined.

(** ** Quotes of the stored value *)

Section stored_values.

Import configparser.
Context (py2 : LegacyModule).


End stored_values.



Section first_missing_option.

Import configparser.
Context (py2 : LegacyModule).

(** The four lookups in a row. *)
Lemma lookups_raise_first (look : string -> result string)
    (before after : list string) (key : string) (e : exn) :
  ["name"; "version"; "description"; "homepage"] = (before ++ key :: after)%list ->
  (forall k, k ∈ before -> is_ok (look k) = true) ->
  look key = Raise e ->
  (name ← look "name";
   version ← look "version";
   description ← look "description";
   homepage ← look "homepage";
   Ok (<["homepage" := homepage]>
         (<["description" := description]>
            (<["version" := version]> (<["name" := name]> (∅ : gmap string string))))))
  = Raise e.
Proof.
  intros Hkeys Hbefore Hraise.
  assert (Hok : forall k, k ∈ before -> exists v, look k = Ok v).
  { intros k Hk. specialize (Hbefore k Hk).
    destruct (look k) as [v|]; [eauto | discriminate]. }
  unfold mbind, result_mbind, result_bind.
  destruct before as [|b1 [|b2 [|b3 [|b4 before]]]]; simplify_eq/=.
  - rewrite Hraise. reflexivity.
  - destruct (Hok "name") as [? ->]; [set_solver|].
    rewrite Hraise. reflexivity.
  - destruct (Hok "name") as [? ->]; [set_solver|].
    destruct (Hok "version") as [? ->]; [set_solver|].
    rewrite Hraise. reflexivity.
  - destruct (Hok "name") as [? ->]; [set_solver|].
    destruct (Hok "version") as [? ->]; [set_solver|].
    destruct (Hok "description") as [? ->]; [set_solver|].
    rewrite Hraise. reflexivity.
  - destruct before; discriminate.
Qed.

Lemma lookups_raise_some (look : string -> result string) (key : string) (e : exn) :
  key ∈ ["name"; "version"; "description"; "homepage"] ->
  look key = Raise e ->
  exists e',
    (name ← look "name";
     version ← look "version";
     description ← look "description";
     homepage ← look "homepage";
     Ok (<["homepage" := homepage]>
           (<["description" := description]>
              (<["version" := version]> (<["name" := name]> (∅ : gmap string string))))))
    = Raise e'.
Proof.
  intros Hkey Hraise. unfold mbind, result_mbind, result_bind.
  destruct (look "name") eqn:Hname; [|eauto].
  destruct (look "version") eqn:Hversion; [|eauto].
  destruct (look "description") eqn:Hdescription; [|eauto].
  destruct (look "homepage") eqn:Hhomepage; [|eauto].
  repeat (apply elem_of_cons in Hkey; destruct Hkey as [->|Hkey]; [congruence|]).
  now apply elem_of_nil in Hkey.
Qed.

(** C8, as the code has it, on Python 3 and later.  [parser] is the parser
    after reading the file.  A key is missing when neither [package] nor
    [DEFAULT] defines it.
    (1) If one of the four keys is missing, the function raises: no
    dictionary, complete or partial, is returned.
    (2) The lookups are made in the order name, version, description,
    homepage: if the lookups before a missing key succeed, the exception
    raised is the one of the lookup of that key, a lookup error.
    (3) If the file has no section [package], the function raises a lookup
    error, whatever [DEFAULT] defines.
    (4) If the file has a section [package], a key that it does not define
    is read from [DEFAULT]: when each of the four keys is defined by
    [package] or, failing that, by [DEFAULT], with values free of
    interpolation marks, the function returns the four values without
    their surrounding quotes. *)
Theorem get_current_configuration_values_missing_key (major : Z) (path : string)
    (w : World) (defaults : gmap string string)
    (sections : gmap string (gmap string string)) (parser : ConfigParser) :
  3 <= major ->
  filesystem w !! path = Some (Parsed defaults sections) ->
  ci_tools.read_file py2 (_get_config_parser py2 major) (Parsed defaults sections)
  = Ok (Modern parser) ->
  (forall key,
      key ∈ ["name"; "version"; "description"; "homepage"] ->
      defaults !! key = None ->
      (forall package, sections !! "package" = Some package ->
                       package !! key = None) ->
      exists e, fst (get_current_configuration_values py2 major path w) = Raise e)
  /\ (forall before key after,
         ["name"; "version"; "description"; "homepage"] = (before ++ key :: after)%list ->
         (forall k, k ∈ before ->
                    is_ok (_get_value py2 major (Modern parser) "package" k) = true) ->
         defaults !! key = None ->
         (forall package, sections !! "package" = Some package ->
                          package !! key = None) ->
         exists e,
           fst (get_current_configuration_values py2 major path w) = Raise e
           /\ _get_value py2 major (Modern parser) "package" key = Raise e
           /\ lookup_error e = true)
  /\ (sections !! "package" = None ->
      exists e,
        fst (get_current_configuration_values py2 major path w) = Raise e
        /\ lookup_error e = true)
  /\ (forall package name version description homepage,
         sections !! "package" = Some package ->
         (package ∪ defaults) !! "name" = Some name ->
         (package ∪ defaults) !! "version" = Some version ->
         (package ∪ defaults) !! "description" = Some description ->
         (package ∪ defaults) !! "homepage" = Some homepage ->
         (forall v, v ∈ [name; version; description; homepage] ->
                    Str.mem "$" v = false /\ Str.mem "%" v = false) ->
         fst (get_current_configuration_values py2 major path w)
         = Ok (<["homepage" := Str.strip QUOTE homepage]>
                 (<["description" := Str.strip QUOTE description]>
                    (<["version" := Str.strip QUOTE version]>
                       (<["name" := Str.strip QUOTE name]> ∅))))).
Proof.
  intros Hmajor Hfile Hread.
  pose proof (read_file_modern py2 major defaults sections Hmajor) as Hmodern.
  rewrite Hread in Hmodern. injection Hmodern as Hparser.
  assert (Hmissing : forall key,
             key ∈ ["name"; "version"; "description"; "homepage"] ->
             defaults !! key = None ->
             (forall package, sections !! "package" = Some package ->
                              package !! key = None) ->
             exists e,
               _get_value py2 major (Modern parser) "package" key = Raise e
               /\ lookup_error e = true).
  { intros key Hkey Hdefault Hpackage.
    assert (Hxform : optionxform key = key).
    { repeat (apply elem_of_cons in Hkey; destruct Hkey as [->|Hkey];
              [reflexivity|]).
      now apply elem_of_nil in Hkey. }
    destruct (retrieve_undefined py2 major parser "package" key Hmajor)
      as [e [Hraise Hlookup]].
    - rewrite Hxform, Hparser. exact Hdefault.
    - rewrite Hxform, Hparser. exact Hpackage.
    - exists e. split; [|exact Hlookup]. apply _get_value_raise, Hraise. }
  rewrite (get_current_configuration_values_lookups py2 major path w _ _ Hfile Hread).
  split; [|split; [|split]].
  - intros key Hkey Hdefault Hpackage.
    destruct (Hmissing key Hkey Hdefault Hpackage) as [e [Hraise _]].
    apply (lookups_raise_some _ key e Hkey Hraise).
  - intros before key after Hkeys Hbefore Hdefault Hpackage.
    assert (Hkey : key ∈ ["name"; "version"; "description"; "homepage"])
      by (rewrite Hkeys; set_solver).
    destruct (Hmissing key Hkey Hdefault Hpackage) as [e [Hraise Hlookup]].
    exists e. split; [|split; assumption].
    apply (lookups_raise_first _ before after key e Hkeys Hbefore Hraise).
  - intros Hpackage.
    assert (Hsection : _sections parser !! "package" = None)
      by (rewrite Hparser; exact Hpackage).
    exists (if major =? 3 then KeyError "package" else NoSectionError "package").
    split; [|destruct (major =? 3); reflexivity].
    rewrite (_get_value_raise py2 major (Modern parser) "package" "name" _
               (retrieve_no_section py2 major parser "package" "name"
                  ltac:(discriminate) Hsection)).
    reflexivity.
  - intros package name version description homepage Hpackage
      Hname Hversion Hdescription Hhomepage Hplain.
    assert (Hsection : _sections parser !! "package" = Some package)
      by (rewrite Hparser; exact Hpackage).
    assert (Hget : forall key v,
               (package ∪ defaults) !! key = Some v ->
               optionxform key = key ->
               v ∈ [name; version; description; homepage] ->
               _get_value py2 major (Modern parser) "package" key
               = Ok (Str.strip QUOTE v)).
    { intros key v Hv Hxform Hin. destruct (Hplain v Hin) as [Hdollar Hpercent].
      apply (_get_value_union py2 major parser "package" key v package);
        try assumption; try discriminate.
      rewrite Hxform, Hparser. exact Hv. }
    rewrite (Hget "name" name Hname eq_refl)
      by (rewrite !elem_of_cons; auto 10).
    rewrite (Hget "version" version Hversion eq_refl)
      by (rewrite !elem_of_cons; auto 10).
    rewrite (Hget "description" description Hdescription eq_refl)
      by (rewrite !elem_of_cons; auto 10).
    rewrite (Hget "homepage" homepage Hhomepage eq_refl)
      by (rewrite !elem_of_cons; auto 10).
    reflexivity.
Qed.

End first_missing_option.

Lemma get_current_configuration_values_missing_key_witness :
  (exists e,
      fst (get_current_configuration_values no_legacy_module 3 "Cargo.toml"
             (world_with cargo_without_name)) = Raise e
      /\ _get_value no_legacy_module 3
           (Modern {| configparser._interpolation := configparser.ExtendedInterpolation;
                      configparser._defaults := ∅;
                      configparser._sections :=
                        {[ "package" := package_without_name ]} |})
           "package" "name" = Raise e
      /\ lookup_error e = true)
  /\ (exists e,
         fst (get_current_configuration_values no_legacy_module 3 "Cargo.toml"
                (world_with cargo_without_package)) = Raise e
         /\ lookup_error e = true)
  /\ fst (get_current_configuration_values no_legacy_module 3 "Cargo.toml"
            (world_with cargo_name_in_default))
     = Ok (<["homepage" := Str.strip QUOTE (quoted "h")]>
             (<["description" := Str.strip QUOTE (quoted "d")]>
                (<["version" := Str.strip QUOTE (quoted "1.0")]>
                   (<["name" := Str.strip QUOTE (quoted "fallback")]> ∅)))).
Proof.
  assert (H3 : 3 <= 3) by lia.
  split; [|split].
  - apply (proj1 (proj2 (get_current_configuration_values_missing_key
                           no_legacy_module 3 "Cargo.toml"
                           (world_with cargo_without_name) ∅
                           {[ "package" := package_without_name ]} _
                           H3 eq_refl eq_refl))
             [] "name" ["version"; "description"; "homepage"]).
    + reflexivity.
    + intros k Hk. apply elem_of_nil in Hk. destruct Hk.
    + reflexivity.
    + intros package Hpackage. vm_compute in Hpackage. injection Hpackage as <-.
      vm_compute. reflexivity.
  - apply (proj1 (proj2 (proj2 (get_current_configuration_values_missing_key
                                  no_legacy_module 3 "Cargo.toml"
                                  (world_with cargo_without_package) package_foo ∅ _
                                  H3 eq_refl eq_refl)))).
    reflexivity.
  - apply (proj2 (proj2 (proj2 (get_current_configuration_values_missing_key
                                  no_legacy_module 3 "Cargo.toml"
                                  (world_with cargo_name_in_default)
                                  {[ "name" := quoted "fallback" ]}
                                  {[ "package" := package_without_name ]} _
                                  H3 eq_refl eq_refl)))
             package_without_name).
    + vm_compute. reflexivity.
    + vm_compute. reflexivity.
    + vm_compute. reflexivity.
    + vm_compute. reflexivity.
    + vm_compute. reflexivity.
    + intros v Hv.
      repeat (apply elem_of_cons in Hv; destruct Hv as [->|Hv];
              [split; vm_compute; reflexivity|]).
      apply elem_of_nil in Hv. destruct Hv.
Defined.

(** The run behind the witness: [name] is defined nowhere and the call
    raises [KeyError name]. *)
Example missing_name_raises :
  fst (get_current_configuration_values no_legacy_module 3 "Cargo.toml"
         (world_with cargo_without_name))
  = Raise (KeyError "name").
Proof. vm_compute. reflexivity. Qed.

(** C8 as the spec states it does not hold: [name] is missing from the
    section [package], and the call does not fail; it returns a dictionary
    whose [name] comes from [DEFAULT]. *)
Lemma missing_key_taken_from_default :
  package_without_name !! "name" = None
  /\ fst (get_current_configuration_values no_legacy_module 3 "Cargo.toml"
            (world_with cargo_name_in_default))
     = Ok {[ "name" := "fallback"; "version" := "1.0";
             "description" := "d"; "homepage" := "h" ]}.
Proof. vm_compute. split; reflexivity. Qed.


(** * Further properties of [ci_tools.py] *)

(** ** The environment as a mapping *)

Section environment_laws.

(** Whether the assignment is accepted depends on the name and the value,
    not on the world. *)
Lemma environ_setitem_uniform (name value : string) :
  (forall w,
      environ_setitem name value w
      = (Ok tt,
         {| filesystem := filesystem w;
            open_files := open_files w;
            environ := <[name := value]> (environ w);
            reference_counting := reference_counting w |}))
  \/ (exists e, forall w, environ_setitem name value w = (Raise e, w)).
Proof.
  unfold environ_setitem.
  destruct (_ || _); [right; eauto|]. destruct (Str.mem "=" name); [right; eauto|].
  destruct (bool_decide _); [right; eauto | left; reflexivity].
Qed.


(** X2. Settings of two different variables commute: either order leaves
    the same process state, also when one of the two is refused. *)
Theorem set_environment_value_commute (name1 value1 name2 value2 : string)
    (w : World) :
  name1 <> name2 ->
  snd (set_environment_value name1 value1
         (snd (set_environment_value name2 value2 w)))
  = snd (set_environment_value name2 value2
           (snd (set_environment_value name1 value1 w))).
Proof.
  intros Hne. unfold set_environment_value.
  destruct (environ_setitem_uniform name1 value1) as [H1|[e1 H1]];
    destruct (environ_setitem_uniform name2 value2) as [H2|[e2 H2]];
    rewrite ?H1, ?H2; simpl; rewrite ?H1, ?H2; simpl; try reflexivity.
  rewrite (insert_insert_ne _ name1 name2 value1 value2 Hne). reflexivity.
Qed.

(** X3. Reading a variable that is set returns its value and changes
    nothing, and writing back the value just read changes nothing either:
    get followed by set of the same name is the identity on the process.
    The set returns normally when the name and the value are ones that
    the environment accepts. *)
Theorem get_then_set_environment_value (name value : string) (w : World) :
  environ w !! name = Some value ->
  get_environment_value name w = (Ok value, w)
  /\ snd (set_environment_value name value w) = w
  /\ (Str.mem NUL name = false ->
      Str.mem NUL value = false ->
      Str.mem "=" name = false ->
      name <> EmptyString ->
      set_environment_value name value w = (Ok tt, w)).
Proof.
  intros Hset. unfold get_environment_value, set_environment_value.
  rewrite Hset. split; [reflexivity|]. split.
  - destruct (environ_setitem_cases name value w) as [->|[e ->]]; [|reflexivity].
    simpl. rewrite (insert_id _ _ _ Hset). destruct w; reflexivity.
  - intros Hname Hvalue Hequal Hempty.
    rewrite (environ_setitem_valid name value w Hname Hvalue Hequal Hempty).
    rewrite (insert_id _ _ _ Hset). destruct w; reflexivity.
Qed.

End environment_laws.


Lemma set_environment_value_commute_witness :
  snd (set_environment_value "A" "1"
         (snd (set_environment_value "B" "2" (world_with cargo_foo))))
  = snd (set_environment_value "B" "2"
           (snd (set_environment_value "A" "1" (world_with cargo_foo)))).
Proof.
  apply (set_environment_value_commute "A" "1" "B" "2" (world_with cargo_foo)).
  discriminate.
Defined.

Lemma get_then_set_environment_value_witness :
  get_environment_value "A" (snd (set_environment_value "A" "1" (world_with cargo_foo)))
  = (Ok "1", snd (set_environment_value "A" "1" (world_with cargo_foo)))
  /\ snd (set_environment_value "A" "1"
            (snd (set_environment_value "A" "1" (world_with cargo_foo))))
     = snd (set_environment_value "A" "1" (world_with cargo_foo))
  /\ set_environment_value "A" "1"
       (snd (set_environment_value "A" "1" (world_with cargo_foo)))
     = (Ok tt, snd (set_environment_value "A" "1" (world_with cargo_foo))).
Proof.
  destruct (get_then_set_environment_value "A" "1"
              (snd (set_environment_value "A" "1" (world_with cargo_foo))) eq_refl)
    as [Hget [Hworld Hset]].
  split; [exact Hget|]. split; [exact Hworld|].
  apply Hset; [reflexivity | reflexivity | reflexivity | discriminate].
Defined.

(** ** Commands and their exit status *)

Section command_status.

Context (shell : string -> World -> Z * World).

(** X4. On Python 3 and later [run_console_command] returns normally
    exactly when the command exits with status 0; any other status [s]
    raises [CalledProcessError] carrying [s] and the command. *)
Theorem run_console_command_checks_status (major : Z) (command : string)
    (w : World) :
  3 <= major ->
  (fst (run_console_command shell major command w) = Ok tt
   <-> fst (shell command w) = 0)
  /\ (fst (shell command w) <> 0 ->
      fst (run_console_command shell major command w)
      = Raise (CalledProcessError (fst (shell command w)) command)).
Proof.
  intros Hmajor. rewrite (run_console_command_modern shell major command w Hmajor).
  destruct (Z.eqb_spec (fst (shell command w)) 0) as [Hzero|Hnonzero]; simpl.
  - split; [split; [intros _; exact Hzero | reflexivity] | congruence].
  - split; [split; [discriminate | congruence] | reflexivity].
Qed.

(** X5. Whatever the interpreter and whatever the exit status, what the
    command did to the world is kept: raising [CalledProcessError] undoes
    nothing, and [run_console_command] adds no effect of its own. *)
Theorem run_console_command_keeps_effects (major : Z) (command : string)
    (w : World) :
  snd (run_console_command shell major command w) = snd (shell command w).
Proof.
  unfold run_console_command, subprocess_call, subprocess_run_check.
  unfold mbind, M_mbind, M_bind, mret, M_mret, M_ret.
  destruct (major <? 3); destruct (shell command w) as [status w']; simpl;
    [reflexivity|].
  destruct (status =? 0); reflexivity.
Qed.

End command_status.

Lemma run_console_command_checks_status_witness :
  (fst (run_console_command (shell_exiting 1) 3 "exit 1" (world_with cargo_foo))
   = Ok tt
   <-> fst (shell_exiting 1 "exit 1" (world_with cargo_foo)) = 0)
  /\ (fst (shell_exiting 1 "exit 1" (world_with cargo_foo)) <> 0 ->
      fst (run_console_command (shell_exiting 1) 3 "exit 1" (world_with cargo_foo))
      = Raise (CalledProcessError
                 (fst (shell_exiting 1 "exit 1" (world_with cargo_foo))) "exit 1")).
Proof.
  apply (run_console_command_checks_status (shell_exiting 1) 3 "exit 1"
           (world_with cargo_foo)).
  lia.
Defined.

(** ** The two readers of the configuration file *)

Section readers.

Context (py2 : LegacyModule).

(** [get_app_name] is its one lookup. *)
Lemma get_app_name_lookup (major : Z) (path : string) (w : World)
    (content : configparser.FileContent) (parser : Parser py2) :
  filesystem w !! path = Some content ->
  read_file py2 (_get_config_parser py2 major) content = Ok parser ->
  fst (get_app_name py2 major path w) = _get_value py2 major parser "DEFAULT" "app".
Proof.
  intros Hfile Hread. unfold get_app_name, with_.
  rewrite until_yield_read_configuration, Hfile, Hread.
  unfold mbind, M_mbind, M_bind, lift.
  destruct (_get_value py2 major parser "DEFAULT" "app"); reflexivity.
Qed.

(** An exception of [read_file] is the exception of both readers. *)
Lemma readers_raise_read_error (major : Z) (path : string) (w : World)
    (content : configparser.FileContent) (e : exn) :
  filesystem w !! path = Some content ->
  read_file py2 (_get_config_parser py2 major) content = Raise e ->
  fst (get_current_configuration_values py2 major path w) = Raise e
  /\ fst (get_app_name py2 major path w) = Raise e.
Proof.
  intros Hfile Hread. unfold get_current_configuration_values, get_app_name, with_.
  rewrite until_yield_read_configuration, Hfile, Hread. split; reflexivity.
Qed.

(** A dictionary returned by [get_current_configuration_values] is made of
    four successful lookups on one parser. *)
Lemma get_current_configuration_values_inv (major : Z) (path : string)
    (w : World) (d : gmap string string) :
  fst (get_current_configuration_values py2 major path w) = Ok d ->
  exists parser name version description homepage,
    _get_value py2 major parser "package" "name" = Ok name
    /\ _get_value py2 major parser "package" "version" = Ok version
    /\ _get_value py2 major parser "package" "description" = Ok description
    /\ _get_value py2 major parser "package" "homepage" = Ok homepage
    /\ d = <["homepage" := homepage]>
             (<["description" := description]>
                (<["version" := version]> (<["name" := name]> ∅))).
Proof.
  unfold get_current_configuration_values, with_.
  rewrite until_yield_read_configuration.
  destruct (filesystem w !! path) as [content|]; [|discriminate].
  destruct (read_file py2 (_get_config_parser py2 major) content) as [parser|];
    [|discriminate].
  unfold mbind, M_mbind, M_bind, lift.
  destruct (_get_value py2 major parser "package" "name") as [name|] eqn:Hname;
    [|discriminate].
  destruct (_get_value py2 major parser "package" "version") as [version|]
    eqn:Hversion; [|discriminate].
  destruct (_get_value py2 major parser "package" "description") as [description|]
    eqn:Hdescription; [|discriminate].
  destruct (_get_value py2 major parser "package" "homepage") as [homepage|]
    eqn:Hhomepage; [|discriminate].
  simpl. intros Hd. injection Hd as <-.
  exists parser, name, version, description, homepage.
  rewrite Hname, Hversion, Hdescription, Hhomepage. repeat split; reflexivity.
Qed.

(** A name returned by [get_app_name] is a successful lookup. *)
Lemma get_app_name_inv (major : Z) (path : string) (w : World) (app : string) :
  fst (get_app_name py2 major path w) = Ok app ->
  exists parser, _get_value py2 major parser "DEFAULT" "app" = Ok app.
Proof.
  unfold get_app_name, with_. rewrite until_yield_read_configuration.
  destruct (filesystem w !! path) as [content|]; [|discriminate].
  destruct (read_file py2 (_get_config_parser py2 major) content) as [parser|];
    [|discriminate].
  unfold mbind, M_mbind, M_bind, lift.
  destruct (_get_value py2 major parser "DEFAULT" "app") as [v|] eqn:Happ;
    [|discriminate].
  simpl. intros Hv. exists parser. rewrite Happ. exact Hv.
Qed.

(** What [_get_value] returns neither starts nor ends with a quote. *)
Lemma _get_value_unquoted (major : Z) (parser : Parser py2)
    (section parameter v : string) :
  _get_value py2 major parser section parameter = Ok v ->
  Str.first v <> Some dquote /\ Str.last v <> Some dquote.
Proof.
  unfold _get_value, mbind, result_mbind, result_bind.
  destruct (if major =? 3 then _ else _) as [value|]; [|discriminate].
  intros Hv. injection Hv as <-.
  destruct (strip_decompose value) as [i [j [_ Hends]]]. exact Hends.
Qed.


(** X7. On Python 3 and later, when the file cannot be parsed, the
    exception of the parser is what both readers raise: it is neither
    caught nor replaced. *)
Theorem readers_unparseable_file (major : Z) (path : string) (w : World)
    (e : exn) :
  3 <= major ->
  filesystem w !! path = Some (configparser.Unparseable e) ->
  fst (get_current_configuration_values py2 major path w) = Raise e
  /\ fst (get_app_name py2 major path w) = Raise e.
Proof.
  intros Hmajor Hfile. apply (readers_raise_read_error major path w _ e Hfile).
  unfold _get_config_parser, ConfigParser.
  destruct (Z.ltb_spec major 3) as [Hlt|_]; [lia|].
  destruct (major =? 3); reflexivity.
Qed.

(** X8. Neither reader changes the environment or the file system, with
    any interpreter, whether it returns or raises. *)
Theorem readers_frame (major : Z) (path : string) (w : World) :
  environ (snd (get_current_configuration_values py2 major path w)) = environ w
  /\ filesystem (snd (get_current_configuration_values py2 major path w))
     = filesystem w
  /\ environ (snd (get_app_name py2 major path w)) = environ w
  /\ filesystem (snd (get_app_name py2 major path w)) = filesystem w.
Proof.
  unfold get_current_configuration_values, get_app_name, with_.
  rewrite until_yield_read_configuration.
  destruct (filesystem w !! path) as [content|]; [|repeat split; reflexivity].
  destruct (read_file py2 (_get_config_parser py2 major) content) as [parser|];
    [|repeat split; reflexivity].
  destruct (reference_counting w); simpl andb; cbv iota;
  unfold mbind, M_mbind, M_bind, lift;
  destruct (_get_value py2 major parser "DEFAULT" "app");
    destruct (_get_value py2 major parser "package" "name");
    destruct (_get_value py2 major parser "package" "version");
    destruct (_get_value py2 major parser "package" "description");
    destruct (_get_value py2 major parser "package" "homepage");
    repeat split; reflexivity.
Qed.

(** X9. With any interpreter, a dictionary returned by
    [get_current_configuration_values] has exactly the four keys [name],
    [version], [description] and [homepage]. *)
Theorem configuration_values_keys (major : Z) (path : string) (w : World)
    (d : gmap string string) :
  fst (get_current_configuration_values py2 major path w) = Ok d ->
  dom d = ({[ "name"; "version"; "description"; "homepage" ]} : gset string).
Proof.
  intros Hd.
  destruct (get_current_configuration_values_inv major path w d Hd)
    as [parser [name [version [description [homepage [_ [_ [_ [_ ->]]]]]]]]].
  rewrite !dom_insert_L, dom_empty_L. set_solver.
Qed.

(** X10. With any interpreter, no value of a dictionary returned by
    [get_current_configuration_values], and no name returned by
    [get_app_name], starts or ends with a double quote. *)
Theorem readers_return_unquoted (major : Z) (path : string) (w : World) :
  (forall d key v,
      fst (get_current_configuration_values py2 major path w) = Ok d ->
      d !! key = Some v ->
      Str.first v <> Some dquote /\ Str.last v <> Some dquote)
  /\ (forall app,
         fst (get_app_name py2 major path w) = Ok app ->
         Str.first app <> Some dquote /\ Str.last app <> Some dquote).
Proof.
  split.
  - intros d key v Hd Hkey.
    destruct (get_current_configuration_values_inv major path w d Hd)
      as [parser [name [version [description [homepage
           [Hname [Hversion [Hdescription [Hhomepage ->]]]]]]]]].
    repeat (apply lookup_insert_Some in Hkey;
            destruct Hkey as [[_ <-]|[_ Hkey]];
            [eapply _get_value_unquoted; eassumption|]).
    rewrite lookup_empty in Hkey. discriminate.
  - intros app Happ. destruct (get_app_name_inv major path w app Happ) as [parser Hv].
    exact (_get_value_unquoted major parser "DEFAULT" "app" app Hv).
Qed.

End readers.


Lemma readers_unparseable_file_witness :
  fst (get_current_configuration_values no_legacy_module 3 "Cargo.toml"
         (world_with cargo_malformed))
  = Raise (MissingSectionHeaderError "Cargo.toml")
  /\ fst (get_app_name no_legacy_module 3 "Cargo.toml" (world_with cargo_malformed))
     = Raise (MissingSectionHeaderError "Cargo.toml").
Proof.
  apply (readers_unparseable_file no_legacy_module 3 "Cargo.toml"
           (world_with cargo_malformed) (MissingSectionHeaderError "Cargo.toml")).
  - lia.
  - vm_compute. reflexivity.
Defined.

Lemma configuration_values_keys_witness :
  dom ({[ "name" := "foo"; "version" := "1.0";
          "description" := "d"; "homepage" := "h" ]} : gmap string string)
  = ({[ "name"; "version"; "description"; "homepage" ]} : gset string).
Proof.
  apply (configuration_values_keys no_legacy_module 3 "Cargo.toml"
           (world_with cargo_foo)).
  vm_compute. reflexivity.
Defined.

Lemma readers_return_unquoted_witness :
  Str.first "foo" <> Some dquote /\ Str.last "foo" <> Some dquote.
Proof.
  apply (proj1 (readers_return_unquoted no_legacy_module 3 "Cargo.toml"
                  (world_with cargo_foo))
           {[ "name" := "foo"; "version" := "1.0";
              "description" := "d"; "homepage" := "h" ]} "name" "foo").
  - vm_compute. reflexivity.
  - vm_compute. reflexivity.
Defined.

(** ** Lookups in [DEFAULT] *)

Section default_lookups.

Import configparser.
Context (py2 : LegacyModule).

(** What the parser returns for an option of [DEFAULT] itself.  A file
    never gives [_sections] an entry named [DEFAULT]: the options under
    that header go to [_defaults]. *)
Lemma retrieve_default (major : Z) (parser : ConfigParser) (key value : string) :
  3 <= major ->
  _sections parser !! "DEFAULT" = None ->
  _defaults parser !! optionxform key = Some value ->
  (if major =? 3 then subscript py2 (Modern parser) "DEFAULT" key
   else ci_tools.get py2 (Modern parser) "DEFAULT" key)
  = before_get parser "DEFAULT" (optionxform key) value (_defaults parser).
Proof.
  intros Hmajor Hsections Hvalue.
  assert (Hdefault : bool_decide ("DEFAULT" ≠ DEFAULTSECT) = false)
    by (apply bool_decide_eq_false_2; intros H; apply H; reflexivity).
  assert (Hget : configparser.get parser "DEFAULT" key
                 = before_get parser "DEFAULT" (optionxform key) value
                     (_defaults parser)).
  { unfold configparser.get, _unify_values. rewrite Hsections, Hdefault.
    rewrite (left_id_L ∅ (∪)). simpl. rewrite Hvalue. reflexivity. }
  destruct (major =? 3); [|exact Hget].
  unfold subscript, getitem. rewrite Hdefault. simpl.
  unfold proxy_getitem, has_option. simpl.
  rewrite (bool_decide_eq_true_2 (is_Some (_defaults parser !! optionxform key)))
    by (rewrite Hvalue; eauto).
  exact Hget.
Qed.

(** X11. On Python 3 and later [get_app_name] returns the option [app] of
    [DEFAULT] without its surrounding quotes, whatever the sections of the
    file define (the value is taken free of interpolation marks). *)
Theorem get_app_name_default (major : Z) (path : string) (w : World)
    (defaults : gmap string string) (sections : gmap string (gmap string string))
    (value : string) :
  3 <= major ->
  filesystem w !! path = Some (Parsed defaults sections) ->
  sections !! "DEFAULT" = None ->
  defaults !! "app" = Some value ->
  Str.mem "$" value = false ->
  Str.mem "%" value = false ->
  fst (get_app_name py2 major path w) = Ok (Str.strip QUOTE value).
Proof.
  intros Hmajor Hfile Hsections Happ Hdollar Hpercent.
  rewrite (get_app_name_lookup py2 major path w _ _ Hfile
             (read_file_modern py2 major defaults sections Hmajor)).
  apply _get_value_strip.
  set (parser := {| _interpolation := if major =? 3 then ExtendedInterpolation
                                      else BasicInterpolation;
                    _defaults := defaults;
                    _sections := sections |}).
  rewrite (retrieve_default major parser "app" value Hmajor Hsections Happ).
  apply before_get_plain; assumption.
Qed.

(** X12. On Python 3 and later [get_app_name] looks in [DEFAULT] only: when
    [DEFAULT] has no [app] it raises a lookup error, whatever [app] the
    sections of the file define. *)
Theorem get_app_name_needs_default (major : Z) (path : string) (w : World)
    (defaults : gmap string string) (sections : gmap string (gmap string string)) :
  3 <= major ->
  filesystem w !! path = Some (Parsed defaults sections) ->
  sections !! "DEFAULT" = None ->
  defaults !! "app" = None ->
  exists e, fst (get_app_name py2 major path w) = Raise e /\ lookup_error e = true.
Proof.
  intros Hmajor Hfile Hsections Happ.
  rewrite (get_app_name_lookup py2 major path w _ _ Hfile
             (read_file_modern py2 major defaults sections Hmajor)).
  destruct (retrieve_undefined py2 major
              {| _interpolation := if major =? 3 then ExtendedInterpolation
                                   else BasicInterpolation;
                 _defaults := defaults;
                 _sections := sections |} "DEFAULT" "app" Hmajor)
    as [e [Hraise Hlookup]].
  - exact Happ.
  - simpl. intros sec Hsec. rewrite Hsections in Hsec. discriminate.
  - exists e. split; [|exact Hlookup]. apply _get_value_raise, Hraise.
Qed.

(** X13. [_get_version] returns the option [version] of [DEFAULT] as the
    file has it, quotes included; [_get_value] on the same option returns
    it stripped. *)
Theorem _get_version_keeps_quotes (major : Z) (parser : ConfigParser)
    (value : string) :
  3 <= major ->
  _sections parser !! "DEFAULT" = None ->
  _defaults parser !! "version" = Some value ->
  Str.mem "$" value = false ->
  Str.mem "%" value = false ->
  _get_version py2 major (Modern parser) = Ok value
  /\ _get_value py2 major (Modern parser) "DEFAULT" "version"
     = Ok (Str.strip QUOTE value).
Proof.
  intros Hmajor Hsections Hversion Hdollar Hpercent.
  pose proof (retrieve_default major parser "version" value Hmajor Hsections
                Hversion) as Hretrieve.
  rewrite (before_get_plain parser "DEFAULT" (optionxform "version") value
             (_defaults parser) Hdollar Hpercent) in Hretrieve.
  split.
  - unfold _get_version. exact Hretrieve.
  - apply _get_value_strip, Hretrieve.
Qed.

(** X14. On Python 3 and later a key that a section defines is read from
    the section, whatever [DEFAULT] defines for that key or any other. *)
Theorem section_value_shadows_default (major : Z) (interpolation : Interpolation)
    (defaults : gmap string string) (sections : gmap string (gmap string string))
    (section key value : string) (sec : gmap string string) :
  3 <= major ->
  section <> EmptyString ->
  section <> "DEFAULT" ->
  sections !! section = Some sec ->
  sec !! Str.lower key = Some value ->
  Str.mem "$" value = false ->
  Str.mem "%" value = false ->
  _get_value py2 major
    (Modern {| _interpolation := interpolation;
               _defaults := defaults;
               _sections := sections |}) section key
  = Ok (Str.strip QUOTE value).
Proof.
  intros Hmajor Hempty Hdefault Hsec Hkey Hdollar Hpercent.
  apply (_get_value_defined py2 major _ section key value sec); assumption.
Qed.

End default_lookups.

Lemma get_app_name_default_witness :
  fst (get_app_name no_legacy_module 3 "Cargo.toml" (world_with cargo_app))
  = Ok (Str.strip QUOTE (quoted "test_common")).
Proof.
  apply (get_app_name_default no_legacy_module 3 "Cargo.toml" (world_with cargo_app)
           {[ "app" := quoted "test_common" ]}
           {[ "package" := <["app" := quoted "other"]> package_foo ]}).
  - lia.
  - vm_compute. reflexivity.
  - vm_compute. reflexivity.
  - vm_compute. reflexivity.
  - vm_compute. reflexivity.
  - vm_compute. reflexivity.
Defined.

Lemma get_app_name_needs_default_witness :
  exists e,
    fst (get_app_name no_legacy_module 3 "Cargo.toml"
           (world_with cargo_app_in_package)) = Raise e
    /\ lookup_error e = true.
Proof.
  apply (get_app_name_needs_default no_legacy_module 3 "Cargo.toml"
           (world_with cargo_app_in_package) ∅
           {[ "package" := <["app" := quoted "other"]> package_foo ]}).
  - lia.
  - vm_compute. reflexivity.
  - vm_compute. reflexivity.
  - vm_compute. reflexivity.
Defined.

Lemma _get_version_keeps_quotes_witness :
  _get_version no_legacy_module 3 (Modern parser_version) = Ok (quoted "1.0")
  /\ _get_value no_legacy_module 3 (Modern parser_version) "DEFAULT" "version"
     = Ok (Str.strip QUOTE (quoted "1.0")).
Proof.
  apply (_get_version_keeps_quotes no_legacy_module 3 parser_version (quoted "1.0")).
  - lia.
  - vm_compute. reflexivity.
  - vm_compute. reflexivity.
  - vm_compute. reflexivity.
  - vm_compute. reflexivity.
Defined.

Lemma section_value_shadows_default_witness :
  _get_value no_legacy_module 3
    (Modern {| configparser._interpolation := configparser.ExtendedInterpolation;
               configparser._defaults := {[ "app" := quoted "test_common" ]};
               configparser._sections :=
                 {[ "package" := <["app" := quoted "other"]> package_foo ]} |})
    "package" "app"
  = Ok (Str.strip QUOTE (quoted "other")).
Proof.
  apply (section_value_shadows_default no_legacy_module 3
           configparser.ExtendedInterpolation {[ "app" := quoted "test_common" ]}
           {[ "package" := <["app" := quoted "other"]> package_foo ]}
           "package" "app" (quoted "other")
           (<["app" := quoted "other"]> package_foo)).
  - lia.
  - discriminate.
  - discriminate.
  - vm_compute. reflexivity.
  - vm_compute. reflexivity.
  - vm_compute. reflexivity.
  - vm_compute. reflexivity.
Defined.

(** ** Keys, sections and the exceptions that name them *)

Section keys_and_errors.

Import configparser.
Context (py2 : LegacyModule).

Lemma lower_char_idempotent (c : ascii) :
  Str.lower_char (Str.lower_char c) = Str.lower_char c.
Proof. destruct c as [[] [] [] [] [] [] [] []]; vm_compute; reflexivity. Qed.

Lemma lower_idempotent (s : string) : Str.lower (Str.lower s) = Str.lower s.
Proof.
  induction s as [|a s IH]; [reflexivity|].
  simpl. rewrite lower_char_idempotent, IH. reflexivity.
Qed.

(** The parser sees a key only through [optionxform]: the key and its
    lower-case form retrieve the same value. *)
Lemma retrieve_lower (major : Z) (parser : ConfigParser)
    (section key value : string) :
  (if major =? 3 then subscript py2 (Modern parser) section key
   else ci_tools.get py2 (Modern parser) section key) = Ok value
  <-> (if major =? 3 then subscript py2 (Modern parser) section (Str.lower key)
       else ci_tools.get py2 (Modern parser) section (Str.lower key)) = Ok value.
Proof.
  assert (Hget : configparser.get parser section (Str.lower key)
                 = configparser.get parser section key).
  { unfold configparser.get, optionxform. rewrite lower_idempotent. reflexivity. }
  assert (Hhas : has_option parser section (Str.lower key)
                 = has_option parser section key).
  { unfold has_option, optionxform. rewrite lower_idempotent. reflexivity. }
  destruct (major =? 3).
  - unfold subscript. destruct (getitem parser section) as [proxy|] eqn:Hproxy;
      [|reflexivity].
    unfold getitem in Hproxy.
    destruct (_ && _) in Hproxy; [discriminate|]. injection Hproxy as <-.
    simpl. unfold proxy_getitem. simpl. rewrite Hhas, Hget.
    destruct (has_option parser section key); simpl; [reflexivity|].
    split; discriminate.
  - unfold ci_tools.get. rewrite Hget. reflexivity.
Qed.

Lemma strip_replicate (n : nat) : Str.strip QUOTE (Str.replicate n dquote) = EmptyString.
Proof.
  unfold Str.strip.
  assert (Hl : Str.lstrip QUOTE (Str.replicate n dquote) = EmptyString).
  { induction n as [|n IH]; [reflexivity|].
    change (Str.replicate (S n) dquote) with (String dquote (Str.replicate n dquote)).
    rewrite lstrip_cons, Ascii.eqb_refl. exact IH. }
  rewrite Hl. reflexivity.
Qed.

(** X15. For a [configparser] parser the key of a lookup is
    case-insensitive: a key and its lower-case form give the same value. *)
Theorem lookup_key_case_insensitive (major : Z) (parser : ConfigParser)
    (section key v : string) :
  _get_value py2 major (Modern parser) section key = Ok v
  <-> _get_value py2 major (Modern parser) section (Str.lower key) = Ok v.
Proof.
  pose proof (retrieve_lower major parser section key) as Hlower. revert Hlower.
  unfold _get_value, mbind, result_mbind, result_bind.
  destruct (if major =? 3 then subscript py2 (Modern parser) section key else _)
    as [r1|e1];
    destruct (if major =? 3 then subscript py2 (Modern parser) section (Str.lower key)
              else _) as [r2|e2]; intros Hlower.
  - destruct (Hlower r1) as [H _]. specialize (H eq_refl). injection H as <-.
    reflexivity.
  - destruct (Hlower r1) as [H _]. specialize (H eq_refl). discriminate.
  - destruct (Hlower r2) as [_ H]. specialize (H eq_refl). discriminate.
  - split; discriminate.
Qed.

(** X16. A lookup in a section that the document does not have raises an
    exception that names the section: [KeyError section] from the
    subscript of Python 3, [NoSectionError section] from [get]. *)
Theorem missing_section_error (major : Z) (parser : ConfigParser)
    (section key : string) :
  section <> "DEFAULT" ->
  _sections parser !! section = None ->
  _get_value py2 major (Modern parser) section key
  = Raise (if major =? 3 then KeyError section else NoSectionError section).
Proof.
  intros Hdefault Hsection. apply _get_value_raise.
  assert (Hdecide : bool_decide (section ≠ DEFAULTSECT) = true)
    by (apply bool_decide_eq_true_2; exact Hdefault).
  destruct (major =? 3).
  - unfold subscript, getitem, has_section. rewrite Hdecide, Hsection.
    rewrite (bool_decide_eq_false_2 (is_Some (@None (gmap string string))))
      by (intros [? ?]; discriminate).
    reflexivity.
  - unfold ci_tools.get, configparser.get, _unify_values.
    rewrite Hsection, Hdecide. reflexivity.
Qed.

(** X17. A lookup of a key that neither the section nor [DEFAULT] defines
    raises an exception that names the key: [KeyError] with the key as it
    was passed from the subscript of Python 3, [NoOptionError] with the
    lower-case key and the section from [get]. *)
Theorem missing_key_error (major : Z) (parser : ConfigParser)
    (section key : string) (sec : gmap string string) :
  _sections parser !! section = Some sec ->
  sec !! Str.lower key = None ->
  _defaults parser !! Str.lower key = None ->
  _get_value py2 major (Modern parser) section key
  = Raise (if major =? 3 then KeyError key
           else NoOptionError (Str.lower key) section).
Proof.
  intros Hsection Hkey Hdefault. apply _get_value_raise.
  destruct (major =? 3).
  - unfold subscript, getitem, has_section. rewrite Hsection.
    rewrite (bool_decide_eq_true_2 (is_Some (Some sec)) (mk_is_Some _ _ eq_refl)).
    rewrite andb_false_r. simpl. unfold proxy_getitem. simpl.
    rewrite (has_option_nowhere parser section key Hdefault).
    + reflexivity.
    + intros sec' Hsec'. rewrite Hsection in Hsec'. injection Hsec' as <-.
      exact Hkey.
  - unfold ci_tools.get, configparser.get, _unify_values. rewrite Hsection. simpl.
    unfold optionxform.
    rewrite (lookup_union_None_2 _ _ _ Hkey Hdefault). reflexivity.
Qed.

(** X18. A value made of double quotes only, such as the empty string
    between two quotes, is returned as the empty string: a lookup that
    succeeds can return an empty string. *)
Theorem quotes_only_value_is_empty (major : Z) (parser : Parser py2)
    (section parameter : string) (n : nat) :
  (if major =? 3 then subscript py2 parser section parameter
   else ci_tools.get py2 parser section parameter) = Ok (Str.replicate n dquote) ->
  _get_value py2 major parser section parameter = Ok EmptyString.
Proof.
  intros Hvalue. rewrite (_get_value_strip py2 major parser _ _ _ Hvalue).
  rewrite strip_replicate. reflexivity.
Qed.

End keys_and_errors.

Lemma missing_section_error_witness :
  _get_value no_legacy_module 3 (Modern parser_foo) "dependencies" "name"
  = Raise (KeyError "dependencies").
Proof.
  apply (missing_section_error no_legacy_module 3 parser_foo "dependencies" "name").
  - discriminate.
  - vm_compute. reflexivity.
Defined.

Lemma missing_key_error_witness :
  _get_value no_legacy_module 3 (Modern parser_foo) "package" "License"
  = Raise (KeyError "License").
Proof.
  apply (missing_key_error no_legacy_module 3 parser_foo "package" "License"
           package_foo).
  - vm_compute. reflexivity.
  - vm_compute. reflexivity.
  - vm_compute. reflexivity.
Defined.

Lemma quotes_only_value_is_empty_witness :
  _get_value no_legacy_module 3
    (Modern {| configparser._interpolation := configparser.ExtendedInterpolation;
               configparser._defaults := ∅;
               configparser._sections :=
                 {[ "package" := {[ "name" := quoted EmptyString ]} ]} |})
    "package" "name"
  = Ok EmptyString.
Proof.
  apply (quotes_only_value_is_empty no_legacy_module 3 _ "package" "name" 2).
  vm_compute. reflexivity.
Defined.

(** ** Interpolation marks in values *)

Section interpolation.

Import configparser.
Context (py2 : LegacyModule).

Lemma split_at_app (c : ascii) (before rest : string) :
  Str.mem c before = false ->
  Str.split_at c (before +:+ String c rest) = Some (before, rest).
Proof.
  induction before as [|a before IH]; intros H.
  - simpl. rewrite Ascii.eqb_refl. reflexivity.
  - change (Ascii.eqb c a || Str.mem c before = false) in H.
    apply orb_false_elim in H. destruct H as [Hca Hbefore].
    rewrite app_cons. simpl. rewrite Ascii.eqb_sym, Hca, (IH Hbefore). reflexivity.
Qed.

Lemma length_app_cons (before : string) (a : ascii) (rest : string) :
  exists n, String.length (before +:+ String a rest) = S n.
Proof. destruct before; simpl; eauto. Qed.

Lemma extended_dollar_escape (budget : nat) (parser : ConfigParser)
    (option section before after : string) (map : gmap string string) :
  Str.mem "$" before = false ->
  Str.mem "$" after = false ->
  extended_interpolate_some (S budget) parser option
    (before +:+ "$$" +:+ after) section map
  = Ok (before +:+ "$" +:+ after).
Proof.
  intros Hbefore Hafter.
  change (before +:+ "$$" +:+ after) with (before +:+ String "$" (String "$" after)).
  destruct (length_app_cons before "$" (String "$" after)) as [n Hn].
  simpl. rewrite (split_at_app _ _ _ Hbefore), Hn.
  rewrite (split_at_absent _ _ Hafter). reflexivity.
Qed.

Lemma split_absent (c : ascii) (s : string) :
  Str.mem c s = false -> Str.split c s = [s].
Proof.
  induction s as [|a s IH]; [reflexivity|].
  intros H. change (Ascii.eqb c a || Str.mem c s = false) in H.
  apply orb_false_elim in H. destruct H as [Hca Hs].
  simpl. rewrite Ascii.eqb_sym, Hca, (IH Hs). reflexivity.
Qed.

Lemma extended_reference (budget : nat) (parser : ConfigParser)
    (option section before name after v : string) (map : gmap string string) :
  Str.mem "$" before = false ->
  name <> EmptyString ->
  Str.mem "}" name = false ->
  Str.mem ":" name = false ->
  map !! optionxform name = Some v ->
  Str.mem "$" v = false ->
  Str.mem "$" after = false ->
  extended_interpolate_some (S budget) parser option
    (before +:+ "${" +:+ name +:+ "}" +:+ after) section map
  = Ok (before +:+ v +:+ after).
Proof.
  intros Hbefore Hname Hbrace Hcolon Hmap Hv Hafter.
  change (before +:+ "${" +:+ name +:+ "}" +:+ after)
    with (before +:+ String "$" (String "{" (name +:+ String "}" after))).
  destruct (length_app_cons before "$" (String "{" (name +:+ String "}" after)))
    as [n Hn].
  pose proof (split_absent _ _ Hcolon) as Hsplit.
  cbn [extended_interpolate_some]. rewrite Hn.
  rewrite (split_at_app _ _ _ Hbefore).
  rewrite (split_at_app _ _ _ Hbrace).
  destruct name as [|c name]; [contradiction|].
  rewrite Hsplit, Hmap. cbn [mbind result_mbind result_bind]. rewrite Hv.
  rewrite (split_at_absent _ _ Hafter). reflexivity.
Qed.

Lemma extended_lone_dollar (budget : nat) (parser : ConfigParser)
    (option section before rest : string) (map : gmap string string) :
  Str.mem "$" before = false ->
  Str.first rest <> Some "$"%char ->
  Str.first rest <> Some "{"%char ->
  extended_interpolate_some (S budget) parser option
    (before +:+ "$" +:+ rest) section map
  = Raise (InterpolationSyntaxError option section).
Proof.
  intros Hbefore Hdollar Hbrace.
  change (before +:+ "$" +:+ rest) with (before +:+ String "$" rest).
  destruct (length_app_cons before "$" rest) as [n Hn].
  cbn [extended_interpolate_some]. rewrite Hn.
  rewrite (split_at_app _ _ _ Hbefore).
  destruct rest as [|c rest]; [reflexivity|].
  destruct c as [[] [] [] [] [] [] [] []]; try reflexivity;
    exfalso; (apply Hdollar; reflexivity) || (apply Hbrace; reflexivity).
Qed.

Lemma extended_self_reference (budget : nat) (parser : ConfigParser)
    (section name : string) (sec : gmap string string) :
  name <> EmptyString ->
  Str.mem "}" name = false ->
  Str.mem ":" name = false ->
  optionxform name = name ->
  _sections parser !! section = Some sec ->
  (sec ∪ _defaults parser) !! name = Some ("${" +:+ name +:+ "}") ->
  extended_interpolate_some budget parser name ("${" +:+ name +:+ "}") section
    (sec ∪ _defaults parser)
  = Raise (InterpolationDepthError name section ("${" +:+ name +:+ "}")).
Proof.
  intros Hname Hbrace Hcolon Hxform Hsec Hmap.
  assert (Hraw : get_raw_fallback parser section name ("${" +:+ name +:+ "}")
                 = "${" +:+ name +:+ "}").
  { unfold get_raw_fallback, get_raw, _unify_values. rewrite Hsec.
    cbn [mbind result_mbind result_bind]. rewrite Hxform, Hmap. reflexivity. }
  assert (Hitems : items_raw parser section = Ok (sec ∪ _defaults parser)).
  { unfold items_raw. rewrite Hsec. reflexivity. }
  pose proof (split_absent _ _ Hcolon) as Hsplit.
  induction budget as [|budget IH].
  - cbn [extended_interpolate_some]. rewrite Hraw. reflexivity.
  - change ("${" +:+ name +:+ "}")
      with (EmptyString +:+ String "$" (String "{" (name +:+ String "}" EmptyString)))
      in *.
    cbn [extended_interpolate_some String.length].
    rewrite (split_at_app "$" EmptyString _ eq_refl).
    rewrite (split_at_app _ _ _ Hbrace).
    destruct name as [|c name]; [contradiction|].
    rewrite Hsplit, Hxform, Hmap. cbn [mbind result_mbind result_bind].
    change (Str.mem "$" (EmptyString +:+ String "$" (String "{"
              (String c name +:+ String "}" EmptyString)))) with true.
    cbn iota. rewrite Hitems. cbn [mbind result_mbind result_bind].
    rewrite IH. reflexivity.
Qed.

(** On Python 3 the value of a key that a section defines goes through the
    interpolation of the parser and then loses its surrounding quotes. *)
Lemma _get_value_interpolated (parser : ConfigParser) (section key value : string)
    (sec : gmap string string) :
  section <> EmptyString ->
  section <> "DEFAULT" ->
  _sections parser !! section = Some sec ->
  sec !! Str.lower key = Some value ->
  _get_value py2 3 (Modern parser) section key
  = Str.strip QUOTE <$> before_get parser section (Str.lower key) value
                          (sec ∪ _defaults parser).
Proof.
  intros Hempty Hdefault Hsec Hkey. unfold _get_value.
  assert (H3 : 3 <= 3) by lia.
  rewrite (retrieve_defined py2 3 parser section key value sec H3 Hsec).
  - destruct (before_get _ _ _ _ _); reflexivity.
  - apply lookup_union_Some_l, Hkey.
  - apply (has_option_section parser section key sec); try assumption.
    unfold optionxform. rewrite Hkey. eauto.
Qed.

(** X19. With the parser of Python 3 ([ExtendedInterpolation]) a doubled
    dollar in a value stands for one dollar: it is returned as a single
    [$], and the value then loses its surrounding quotes. *)
Theorem dollar_escape (parser : ConfigParser) (section key before after : string)
    (sec : gmap string string) :
  _interpolation parser = ExtendedInterpolation ->
  section <> EmptyString ->
  section <> "DEFAULT" ->
  _sections parser !! section = Some sec ->
  sec !! Str.lower key = Some (before +:+ "$$" +:+ after) ->
  Str.mem "$" before = false ->
  Str.mem "$" after = false ->
  _get_value py2 3 (Modern parser) section key
  = Ok (Str.strip QUOTE (before +:+ "$" +:+ after)).
Proof.
  intros Hext Hempty Hdefault Hsec Hkey Hbefore Hafter.
  rewrite (_get_value_interpolated parser section key _ sec Hempty Hdefault Hsec Hkey).
  unfold before_get, MAX_INTERPOLATION_DEPTH. rewrite Hext.
  rewrite (extended_dollar_escape _ _ _ _ _ _ _ Hbefore Hafter). reflexivity.
Qed.

(** X20. With the parser of Python 3 a reference [${name}] in a value is
    replaced by the value that the section, or [DEFAULT] when the section
    has none, gives to [name]; the text around the reference is kept, and
    the quotes are stripped after the replacement. *)
Theorem reference_resolved (parser : ConfigParser)
    (section key before name after v : string) (sec : gmap string string) :
  _interpolation parser = ExtendedInterpolation ->
  section <> EmptyString ->
  section <> "DEFAULT" ->
  _sections parser !! section = Some sec ->
  sec !! Str.lower key = Some (before +:+ "${" +:+ name +:+ "}" +:+ after) ->
  Str.mem "$" before = false ->
  Str.mem "$" after = false ->
  name <> EmptyString ->
  Str.mem "}" name = false ->
  Str.mem ":" name = false ->
  (sec ∪ _defaults parser) !! Str.lower name = Some v ->
  Str.mem "$" v = false ->
  _get_value py2 3 (Modern parser) section key
  = Ok (Str.strip QUOTE (before +:+ v +:+ after)).
Proof.
  intros Hext Hempty Hdefault Hsec Hkey Hbefore Hafter Hname Hbrace Hcolon Hmap Hv.
  rewrite (_get_value_interpolated parser section key _ sec Hempty Hdefault Hsec Hkey).
  unfold before_get, MAX_INTERPOLATION_DEPTH. rewrite Hext.
  rewrite (extended_reference _ _ _ _ _ _ _ v _ Hbefore Hname Hbrace Hcolon Hmap Hv
             Hafter).
  reflexivity.
Qed.

(** X21. With the parser of Python 3 a dollar that is followed neither by
    a dollar nor by an opening brace, or that ends the value, makes the
    lookup raise [InterpolationSyntaxError]: such a value cannot be read. *)
Theorem lone_dollar_raises (parser : ConfigParser)
    (section key before rest : string) (sec : gmap string string) :
  _interpolation parser = ExtendedInterpolation ->
  section <> EmptyString ->
  section <> "DEFAULT" ->
  _sections parser !! section = Some sec ->
  sec !! Str.lower key = Some (before +:+ "$" +:+ rest) ->
  Str.mem "$" before = false ->
  Str.first rest <> Some "$"%char ->
  Str.first rest <> Some "{"%char ->
  _get_value py2 3 (Modern parser) section key
  = Raise (InterpolationSyntaxError (Str.lower key) section).
Proof.
  intros Hext Hempty Hdefault Hsec Hkey Hbefore Hdollar Hbrace.
  rewrite (_get_value_interpolated parser section key _ sec Hempty Hdefault Hsec Hkey).
  unfold before_get, MAX_INTERPOLATION_DEPTH. rewrite Hext.
  rewrite (extended_lone_dollar _ _ _ _ _ _ _ Hbefore Hdollar Hbrace). reflexivity.
Qed.

(** X22. With the parser of Python 3 an option whose value is a reference
    to itself makes the lookup raise [InterpolationDepthError]: the
    replacement stops at the depth limit and the lookup returns. *)
Theorem self_reference_raises (parser : ConfigParser) (section key : string)
    (sec : gmap string string) :
  _interpolation parser = ExtendedInterpolation ->
  section <> EmptyString ->
  section <> "DEFAULT" ->
  _sections parser !! section = Some sec ->
  key <> EmptyString ->
  Str.lower key = key ->
  Str.mem "}" key = false ->
  Str.mem ":" key = false ->
  sec !! key = Some ("${" +:+ key +:+ "}") ->
  _get_value py2 3 (Modern parser) section key
  = Raise (InterpolationDepthError key section ("${" +:+ key +:+ "}")).
Proof.
  intros Hext Hempty Hdefault Hsec Hkey Hlower Hbrace Hcolon Hvalue.
  assert (Hvalue' : sec !! Str.lower key = Some ("${" +:+ key +:+ "}"))
    by (rewrite Hlower; exact Hvalue).
  rewrite (_get_value_interpolated parser section key _ sec Hempty Hdefault Hsec
             Hvalue').
  unfold before_get. rewrite Hext, Hlower.
  rewrite (extended_self_reference MAX_INTERPOLATION_DEPTH parser section key sec
             Hkey Hbrace Hcolon Hlower Hsec (lookup_union_Some_l _ _ _ _ Hvalue)).
  reflexivity.
Qed.
End interpolation.

Lemma dollar_escape_witness :
  _get_value no_legacy_module 3 (Modern parser_interpolated) "package" "price"
  = Ok "$5".
Proof.
  apply (dollar_escape no_legacy_module parser_interpolated "package" "price"
           QUOTE ("5" +:+ QUOTE)
           (<["name" := quoted "${app}"]>
              (<["price" := quoted "$$5"]>
                 (<["cost" := quoted "$5"]> (<["loop" := "${loop}"]> ∅))))).
  - reflexivity.
  - discriminate.
  - discriminate.
  - vm_compute. reflexivity.
  - vm_compute. reflexivity.
  - vm_compute. reflexivity.
  - vm_compute. reflexivity.
Defined.

Lemma reference_resolved_witness :
  _get_value no_legacy_module 3 (Modern parser_interpolated) "package" "name"
  = Ok "test_common".
Proof.
  apply (reference_resolved no_legacy_module parser_interpolated "package" "name"
           QUOTE "app" QUOTE (quoted "test_common")
           (<["name" := quoted "${app}"]>
              (<["price" := quoted "$$5"]>
                 (<["cost" := quoted "$5"]> (<["loop" := "${loop}"]> ∅))))).
  - reflexivity.
  - discriminate.
  - discriminate.
  - vm_compute. reflexivity.
  - vm_compute. reflexivity.
  - vm_compute. reflexivity.
  - vm_compute. reflexivity.
  - discriminate.
  - vm_compute. reflexivity.
  - vm_compute. reflexivity.
  - vm_compute. reflexivity.
  - vm_compute. reflexivity.
Defined.

Lemma lone_dollar_raises_witness :
  _get_value no_legacy_module 3 (Modern parser_interpolated) "package" "cost"
  = Raise (InterpolationSyntaxError "cost" "package").
Proof.
  apply (lone_dollar_raises no_legacy_module parser_interpolated "package" "cost"
           QUOTE ("5" +:+ QUOTE)
           (<["name" := quoted "${app}"]>
              (<["price" := quoted "$$5"]>
                 (<["cost" := quoted "$5"]> (<["loop" := "${loop}"]> ∅))))).
  - reflexivity.
  - discriminate.
  - discriminate.
  - vm_compute. reflexivity.
  - vm_compute. reflexivity.
  - vm_compute. reflexivity.
  - discriminate.
  - discriminate.
Defined.

Lemma self_reference_raises_witness :
  _get_value no_legacy_module 3 (Modern parser_interpolated) "package" "loop"
  = Raise (InterpolationDepthError "loop" "package" "${loop}").
Proof.
  apply (self_reference_raises no_legacy_module parser_interpolated "package" "loop"
           (<["name" := quoted "${app}"]>
              (<["price" := quoted "$$5"]>
                 (<["cost" := quoted "$5"]> (<["loop" := "${loop}"]> ∅))))).
  - reflexivity.
  - discriminate.
  - discriminate.
  - vm_compute. reflexivity.
  - discriminate.
  - vm_compute. reflexivity.
  - vm_compute. reflexivity.
  - vm_compute. reflexivity.
  - vm_compute. reflexivity.
Defined.

(** ** The scope opened by [read_configuration] *)

Section scope.

Context (py2 : LegacyModule).

(** X23. When the file exists and is parsed, [with read_configuration(path)
    as parser: body] is the body run on the parser that read the file: what
    the body returns or raises is what the statement returns or raises,
    and nothing runs after the body.  The body runs in the world as it was
    before the statement when the interpreter counts references (the file
    object is gone already), and with the file still open otherwise. *)
Theorem with_read_configuration_runs_body {B : Type} (major : Z) (path : string)
    (w : World) (content : configparser.FileContent) (parser : Parser py2)
    (body : Parser py2 -> M B) :
  filesystem w !! path = Some content ->
  read_file py2 (_get_config_parser py2 major) content = Ok parser ->
  with_ (read_configuration py2 major path) body w
  = body parser (if reference_counting w then w
                 else {| filesystem := filesystem w;
                         open_files := path :: open_files w;
                         environ := environ w;
                         reference_counting := reference_counting w |}).
Proof.
  intros Hfile Hread. unfold with_.
  rewrite until_yield_read_configuration, Hfile, Hread. simpl is_ok. simpl andb.
  destruct (body parser _) as [[b|e] w2]; reflexivity.
Qed.

(** X24. What the two readers return depends on the world only through
    the content of the file at the given path: the environment, the other
    files and the file objects already open have no influence. *)
Theorem readers_depend_on_file_only (major : Z) (path : string) (w1 w2 : World) :
  filesystem w1 !! path = filesystem w2 !! path ->
  fst (get_current_configuration_values py2 major path w1)
  = fst (get_current_configuration_values py2 major path w2)
  /\ fst (get_app_name py2 major path w1) = fst (get_app_name py2 major path w2).
Proof.
  intros Hsame. unfold get_current_configuration_values, get_app_name, with_.
  rewrite !until_yield_read_configuration, Hsame.
  destruct (filesystem w2 !! path) as [content|]; [|split; reflexivity].
  destruct (read_file py2 (_get_config_parser py2 major) content) as [parser|];
    [|split; reflexivity].
  unfold mbind, M_mbind, M_bind, lift.
  destruct (_get_value py2 major parser "DEFAULT" "app");
    destruct (_get_value py2 major parser "package" "name");
    destruct (_get_value py2 major parser "package" "version");
    destruct (_get_value py2 major parser "package" "description");
    destruct (_get_value py2 major parser "package" "homepage");
    split; reflexivity.
Qed.

End scope.

Lemma with_read_configuration_runs_body_witness :
  with_ (read_configuration no_legacy_module 3 "Cargo.toml")
    (fun parser => lift (_get_value no_legacy_module 3 parser "package" "name"))
    (world_with cargo_foo)
  = lift (_get_value no_legacy_module 3 (Modern parser_foo) "package" "name")
      (world_with cargo_foo).
Proof.
  apply (with_read_configuration_runs_body no_legacy_module 3 "Cargo.toml"
           (world_with cargo_foo) cargo_foo (Modern parser_foo)
           (fun parser => lift (_get_value no_legacy_module 3 parser "package" "name"))).
  - vm_compute. reflexivity.
  - vm_compute. reflexivity.
Defined.

Lemma readers_depend_on_file_only_witness :
  fst (get_current_configuration_values no_legacy_module 3 "Cargo.toml"
         (world_with cargo_foo))
  = fst (get_current_configuration_values no_legacy_module 3 "Cargo.toml"
           (snd (set_environment_value "A" "1" (world_with cargo_foo))))
  /\ fst (get_app_name no_legacy_module 3 "Cargo.toml" (world_with cargo_foo))
     = fst (get_app_name no_legacy_module 3 "Cargo.toml"
              (snd (set_environment_value "A" "1" (world_with cargo_foo)))).
Proof.
  apply (readers_depend_on_file_only no_legacy_module 3 "Cargo.toml"
           (world_with cargo_foo)
           (snd (set_environment_value "A" "1" (world_with cargo_foo)))).
  vm_compute. reflexivity.
Defined.
